(** * Announcements endpoints of the High School Management System API

    A shallow embedding of [src/backend/routers/announcements.py]: the four
    request handlers [get_announcements], [create_announcement],
    [update_announcement] and [delete_announcement], together with the parts
    of the Python runtime, of [bson] and of the document store they call.

    Conventions.
    - A Python [str] is a [string]; its characters are the code points
      below 256.  On that range [\d] is ['0'..'9'] and [str.isspace] is the
      table of [isspace] below.
    - A Python [dict] with string keys (a BSON document, a JSON object) is a
      [gmap string Value]; [None] is [VNull].
    - A collection is a finite map from the primary key [_id] to the rest of
      the document: the store keeps [_id] unique.
    - [raise HTTPException(...)] is the [Raise] outcome of [Result]; a
      handler that raises leaves the store as it found it.
    - [datetime.now()] is an argument [now] of the handlers that read the
      clock. *)

From Stdlib Require Import NArith Ascii String Sorted Permutation Lia.

From stdpp Require Import base option list sorting gmap strings.

Local Open Scope N_scope.

(** ** Python strings *)

Module Str.

Definition ord (c : ascii) : N := N_of_ascii c.

(** [str.isspace] on one character. *)
Definition isspace (c : ascii) : bool :=
  let n := ord c in
  ((9 <=? n) && (n <=? 13)) || ((28 <=? n) && (n <=? 32))
  || (n =? 133) || (n =? 160).

Fixpoint lstrip (s : string) : string :=
  match s with
  | EmptyString => EmptyString
  | String c s' => if isspace c then lstrip s' else s
  end.

Fixpoint rstrip (s : string) : string :=
  match s with
  | EmptyString => EmptyString
  | String c s' =>
      match rstrip s' with
      | EmptyString => if isspace c then EmptyString else String c EmptyString
      | r => String c r
      end
  end.

(** [s.strip()] *)
Definition strip (s : string) : string := rstrip (lstrip s).

(** Truth value of a string: [bool(s)]. *)
Definition truthy (s : string) : bool :=
  match s with EmptyString => false | String _ _ => true end.

Definition in_range (lo hi : ascii) (c : ascii) : bool :=
  (ord lo <=? ord c) && (ord c <=? ord hi).

Definition isdigit : ascii -> bool := in_range "0" "9".

Definition digit_value (c : ascii) : N := ord c - ord "0".

(** [int(s)] for a string of decimal digits with optional surrounding
    blanks, the only shape the callers below pass. *)
Definition int (s : string) : N :=
  fold_left (fun acc c => 10 * acc + digit_value c)
            (list_ascii_of_string (strip s)) 0.

Definition digit_char (d : N) : ascii :=
  ascii_of_N (if d <? 10 then ord "0" + d else ord "a" + (d - 10)).

(** The [width] lowest digits of [n] in base [base], most significant
    first, zero padded: ["%0<width>d"] for [base = 10] and
    [hexlify] of a [width/2]-byte big-endian value for [base = 16]. *)
Fixpoint render (base : N) (width : nat) (n : N) : string :=
  match width with
  | O => EmptyString
  | S w => render base w (n / base) +:+ String (digit_char (n mod base)) EmptyString
  end.

Definition zfill (width : nat) (n : N) : string := render 10 width n.

(** ["%d"] of a number below ten thousand: decimal, not padded. *)
Definition decimal (n : N) : string :=
  if n <? 10 then zfill 1 n
  else if n <? 100 then zfill 2 n
  else if n <? 1000 then zfill 3 n
  else zfill 4 n.

End Str.

(** ** [datetime] *)

Module Datetime.

Record datetime := mk_datetime {
  year : N; month : N; day : N;
  hour : N; minute : N; second : N; microsecond : N
}.

Definition MINYEAR : N := 1.

Definition MAXYEAR : N := 9999.

Definition is_leap (y : N) : bool :=
  (y mod 4 =? 0) && (negb (y mod 100 =? 0) || (y mod 400 =? 0)).

Definition days_in_month (y m : N) : N :=
  if m =? 2 then (if is_leap y then 29 else 28)
  else if (m =? 4) || (m =? 6) || (m =? 9) || (m =? 11) then 30
  else 31.

(** The checks of the [date(year, month, day)] constructor;
    [false] is its [ValueError]. *)
Definition valid_date (y m d : N) : bool :=
  (MINYEAR <=? y) && (y <=? MAXYEAR) && (1 <=? m) && (m <=? 12)
  && (1 <=? d) && (d <=? days_in_month y m).

(** [t.strftime("%Y-%m-%d")].  The C library prints [%Y] as the year in
    decimal without padding, so a year below 1000 has fewer than four
    digits; month and day are padded to two.  The year of a [datetime] is
    between [MINYEAR] and [MAXYEAR]. *)
Definition strftime_Ymd (t : datetime) : string :=
  Str.decimal (year t) +:+ "-" +:+ Str.zfill 2 (month t) +:+ "-"
  +:+ Str.zfill 2 (day t).

(** [t.isoformat()]: the year padded to four digits; the fraction is
    printed only when it is not zero. *)
Definition isoformat (t : datetime) : string :=
  Str.zfill 4 (year t) +:+ "-" +:+ Str.zfill 2 (month t) +:+ "-"
  +:+ Str.zfill 2 (day t) +:+ "T" +:+ Str.zfill 2 (hour t) +:+ ":"
  +:+ Str.zfill 2 (minute t) +:+ ":" +:+ Str.zfill 2 (second t)
  +:+ (if microsecond t =? 0 then "" else "." +:+ Str.zfill 6 (microsecond t)).

(** *** [datetime.strptime(s, "%Y-%m-%d")]

    [_strptime] compiles the format to the regular expression
    [(?P<Y>\d\d\d\d)-(?P<m>1[0-2]|0[1-9]|[1-9])-(?P<d>3[0-1]|[1-2]\d|0[1-9]|[1-9]| [1-9])],
    matches it at the start of the text, refuses text left over, converts
    the three groups with [int] and builds the date.  A regular expression
    is embedded as a backtracking matcher: the list of (matched text, rest)
    in the order the engine tries them. *)

Definition rx := string -> list (string * string).

Definition rx_char (p : ascii -> bool) : rx := fun s =>
  match s with
  | String c r => if p c then [(String c EmptyString, r)] else []
  | EmptyString => []
  end.

Definition rx_lit (c : ascii) : rx := rx_char (fun x => bool_decide (x = c)).

Definition rx_seq (r1 r2 : rx) : rx := fun s =>
  '(a, s1) ← r1 s; '(b, s2) ← r2 s1; [(a +:+ b, s2)].

Definition rx_alt (r1 r2 : rx) : rx := fun s => r1 s ++ r2 s.

Definition rx_d : rx := rx_char Str.isdigit.

Definition rx_in (lo hi : ascii) : rx := rx_char (Str.in_range lo hi).

Definition rx_Y : rx := rx_seq rx_d (rx_seq rx_d (rx_seq rx_d rx_d)).

Definition rx_m : rx :=
  rx_alt (rx_seq (rx_lit "1") (rx_in "0" "2"))
 (rx_alt (rx_seq (rx_lit "0") (rx_in "1" "9"))
         (rx_in "1" "9")).

Definition rx_day : rx :=
  rx_alt (rx_seq (rx_lit "3") (rx_in "0" "1"))
 (rx_alt (rx_seq (rx_in "1" "2") rx_d)
 (rx_alt (rx_seq (rx_lit "0") (rx_in "1" "9"))
 (rx_alt (rx_in "1" "9")
         (rx_seq (rx_lit " ") (rx_in "1" "9"))))).

(** The groups [(Y, m, d)] of every way the whole expression matches a
    prefix of [s], with the text left over. *)
Definition format_regex (s : string) : list ((string * string * string) * string) :=
  '(Y, s1) ← rx_Y s;
  '(_, s2) ← rx_lit "-" s1;
  '(m, s3) ← rx_m s2;
  '(_, s4) ← rx_lit "-" s3;
  '(d, s5) ← rx_day s4;
  [((Y, m, d), s5)].

(** [None] is [ValueError]. *)
Definition strptime_Ymd (s : string) : option (N * N * N) :=
  match format_regex s with
  | [] => None                                   (* does not match format *)
  | ((Y, m, d), rest) :: _ =>
      if Str.truthy rest then None               (* unconverted data remains *)
      else
        let y := Str.int Y in
        let mo := Str.int m in
        let da := Str.int d in
        if valid_date y mo da then Some (y, mo, da) else None
  end.

End Datetime.

(** ** BSON values, [ObjectId] and documents *)

Module Bson.

Inductive Value :=
| VNull
| VBool (b : bool)
| VStr (s : string)
| VOid (oid : N).

Global Instance Value_eq_dec : EqDecision Value.
Proof. solve_decision. Defined.

Abbreviation Document := (gmap string Value).

(** An [ObjectId] holds bytes, twelve of them when it is well made.  The
    collection is keyed by a number that stands for the bytes: twelve bytes
    are their big-endian value, below [oid_bound]. *)
Definition oid_bound : N := 2 ^ 96.

Definition ishex (c : ascii) : bool :=
  Str.isdigit c || Str.in_range "a" "f" c || Str.in_range "A" "F" c.

Definition hex_value (c : ascii) : N :=
  if Str.isdigit c then Str.ord c - Str.ord "0"
  else if Str.in_range "a" "f" c then Str.ord c - Str.ord "a" + 10
  else Str.ord c - Str.ord "A" + 10.

Definition of_hex (s : string) : N :=
  fold_left (fun acc c => 16 * acc + hex_value c) (list_ascii_of_string s) 0.

(** The white space [bytes.fromhex] skips: tab, line feed, vertical tab,
    form feed, carriage return and the blank. *)
Definition is_ascii_space (c : ascii) : bool :=
  let n := Str.ord c in ((9 <=? n) && (n <=? 13)) || (n =? 32).

(** [bytes.fromhex(s)]: two hexadecimal digits for each byte, white space
    skipped before a pair and at the end, not inside a pair; [None] is its
    [ValueError]. *)
Fixpoint fromhex (l : list ascii) : option (list N) :=
  match l with
  | [] => Some []
  | c :: l' =>
      if is_ascii_space c then fromhex l'
      else
        match l' with
        | d :: l'' =>
            if ishex c && ishex d
            then cons (16 * hex_value c + hex_value d) <$> fromhex l''
            else None
        | [] => None
        end
  end.

(** The number that stands for the bytes of an id.  Fewer than twelve
    bytes, which [ObjectId] lets through when the text has white space,
    get a number from [oid_bound] on, apart from every twelve-byte id. *)
Definition oid_of_bytes (bs : list N) : N :=
  let value := fold_left (fun acc b => 256 * acc + b) bs 0 in
  if (length bs =? 12)%nat then value
  else oid_bound * (N.of_nat (length bs) + 1) + value.

(** [ObjectId(s)] for a string [s]: the text must have twenty-four
    characters and [bytes.fromhex] must read it; [None] is [InvalidId]. *)
Definition ObjectId (s : string) : option N :=
  if (String.length s =? 24)%nat
  then oid_of_bytes <$> fromhex (list_ascii_of_string s)
  else None.

(** [str(oid)] of a twelve-byte id: its twenty-four hexadecimal digits. *)
Definition str_oid (oid : N) : string := Str.render 16 24 oid.

(** [str(v)] *)
Definition str (v : Value) : string :=
  match v with
  | VNull => "None"
  | VBool true => "True"
  | VBool false => "False"
  | VStr s => s
  | VOid oid => str_oid oid
  end.

(** A dictionary entry holding an [Optional[str]]. *)
Definition of_optional (o : option string) : Value :=
  match o with Some s => VStr s | None => VNull end.

(** The store's order on values: values of different types compare by
    type (null, then strings, then object ids, then booleans); strings
    compare by code points; a missing field counts as null. *)
Definition type_rank (v : Value) : N :=
  match v with VNull => 0 | VStr _ => 1 | VOid _ => 2 | VBool _ => 3 end.

Definition value_le (a b : Value) : Prop :=
  match a, b with
  | VNull, VNull => True
  | VStr x, VStr y => String.le x y
  | VOid x, VOid y => x <= y
  | VBool x, VBool y => implb x y
  | _, _ => type_rank a < type_rank b
  end.

Global Instance value_le_dec : RelDecision value_le.
Proof. intros [] []; simpl; apply _. Defined.

Definition field (f : string) (doc : Document) : Value :=
  default VNull (doc !! f).

End Bson.

Export Bson.

(** ** The document store *)

Module Mongo.

(** A collection whose [_id]s are [ObjectId]s, keyed by them. *)
Abbreviation Collection := (gmap N Document).

(** A filter document. *)
#[warnings="-register-all"] Inductive Query :=
| Q_eq (f : string) (v : Value)          (* {f: v} *)
| Q_gte (f : string) (v : Value)         (* {f: {"$gte": v}} *)
| Q_or (qs : list Query)                 (* {"$or": [q, ...]} *)
| Q_all (qs : list Query).               (* several keys in one filter; {} is [Q_all []] *)

(** Equality with [None] also selects the documents without the field;
    [$gte] selects values of the type of its bound only. *)
Fixpoint matches (q : Query) (doc : Document) : bool :=
  match q with
  | Q_eq f VNull => bool_decide (doc !! f = None ∨ doc !! f = Some VNull)
  | Q_eq f v => bool_decide (doc !! f = Some v)
  | Q_gte f v =>
      match doc !! f with
      | Some w => bool_decide (type_rank w = type_rank v ∧ value_le v w)
      | None => false
      end
  | Q_or qs => existsb (fun q' => matches q' doc) qs
  | Q_all qs => forallb (fun q' => matches q' doc) qs
  end.

(** A stored document as a query returns it, [_id] included. *)
Definition with_id (oid : N) (body : Document) : Document :=
  <["_id" := VOid oid]> body.

Definition documents (coll : Collection) : list Document :=
  (fun kb => with_id kb.1 kb.2) <$> map_to_list coll.

(** [coll.find(q)] *)
Definition find (coll : Collection) (q : Query) : list Document :=
  filter (fun doc => matches q doc = true) (documents coll).

(** The order of [cursor.sort(f, -1)]: [a] may come before [b]. *)
Definition desc_by (f : string) : relation Document :=
  fun a b => value_le (field f b) (field f a).

Global Instance desc_by_dec f : RelDecision (desc_by f).
Proof. intros a b. unfold desc_by. apply _. Defined.

(** [cursor.sort(f, -1)] *)
Definition sort_desc (f : string) (docs : list Document) : list Document :=
  merge_sort (desc_by f) docs.

(** [coll.find_one({"_id": oid})] *)
Definition find_one (coll : Collection) (oid : N) : option Document :=
  with_id oid <$> coll !! oid.

(** [not doc] for the result of [find_one]. *)
Definition falsy (o : option Document) : bool :=
  match o with
  | None => true
  | Some doc => bool_decide (doc = ∅)
  end.

(** [coll.update_one({"_id": oid}, {"$set": update_data})]: the number of
    documents matched and the collection afterwards. *)
Definition update_one (coll : Collection) (oid : N) (update_data : Document)
  : N * Collection :=
  match coll !! oid with
  | Some body => (1, <[oid := update_data ∪ body]> coll)
  | None => (0, coll)
  end.

(** [coll.delete_one({"_id": oid})]: [deleted_count] and the collection
    afterwards. *)
Definition delete_one (coll : Collection) (oid : N) : N * Collection :=
  match coll !! oid with
  | Some _ => (1, delete oid coll)
  | None => (0, coll)
  end.

End Mongo.

Export Mongo.

(** ** The handlers *)

Import Str Datetime.

Record HTTPException := mk_HTTPException { status_code : N; detail : string }.

Inductive Result (A : Type) :=
| Ok (a : A)
| Raise (e : HTTPException).

Arguments Ok {A} a.

Arguments Raise {A} e.

(** The module-level handles [announcements_collection] and
    [teachers_collection], and the state of [bson]'s [ObjectId()]
    generator.  The generator never repeats an id; it is modelled as a
    counter, [next_oid] being the id the next call returns. *)
Record DB := mk_DB {
  announcements_collection : gmap N Document;
  teachers_collection : gmap string Document;
  next_oid : N
}.

Definition set_announcements (db : DB) (coll : gmap N Document) : DB :=
  {| announcements_collection := coll;
     teachers_collection := teachers_collection db;
     next_oid := next_oid db |}.

(** [teachers_collection.find_one({"_id": username})] *)
Definition find_one_teacher (coll : gmap string Document) (username : string)
  : option Document :=
  (fun body => <["_id" := VStr username]> body) <$> coll !! username.

(** [announcements_collection.insert_one(doc)] for a [doc] without [_id]:
    a new [ObjectId] is drawn and returned with the store; [None] is the
    store's duplicate-key error. *)
Definition insert_one (db : DB) (doc : Document) : option (N * DB) :=
  let inserted_id := next_oid db in
  match announcements_collection db !! inserted_id with
  | Some _ => None
  | None =>
      Some (inserted_id,
            {| announcements_collection := <[inserted_id := doc]> (announcements_collection db);
               teachers_collection := teachers_collection db;
               next_oid := inserted_id + 1 |})
  end.

Definition HTTP_401 := mk_HTTPException 401 "Invalid teacher credentials".

Definition HTTP_400_message := mk_HTTPException 400 "Message is required".

Definition HTTP_400_expiration := mk_HTTPException 400 "Expiration date is required".

Definition HTTP_400_date := mk_HTTPException 400 "Invalid date format. Use YYYY-MM-DD".

Definition HTTP_400_id := mk_HTTPException 400 "Invalid announcement ID".

Definition HTTP_404 := mk_HTTPException 404 "Announcement not found".

Definition HTTP_500_delete := mk_HTTPException 500 "Failed to delete announcement".
(** What the framework answers when a handler lets an exception escape. *)

Definition HTTP_500_unhandled := mk_HTTPException 500 "Internal Server Error".

(** The [try] block both [create_announcement] and [update_announcement]
    run on their dates; [false] is its [ValueError].  A [start_date] that
    is [None] or empty is not parsed. *)
Definition date_format_ok (expiration_date : string) (start_date : option string) : bool :=
  match strptime_Ymd expiration_date with
  | None => false
  | Some _ =>
      match start_date with
      | Some s => if truthy s then bool_decide (is_Some (strptime_Ymd s)) else true
      | None => true
      end
  end.

(** [GET /announcements] *)
Definition get_announcements (db : DB) (now : datetime) (active_only : bool)
  : list Document :=
  let query :=
    if active_only then
      let current_date := strftime_Ymd now in
      Q_all [Q_eq "is_active" (VBool true);
             Q_or [Q_gte "expiration_date" (VStr current_date);
                   Q_eq "expiration_date" VNull]]
    else Q_all [] in
  (fun announcement => <["_id" := VStr (str (field "_id" announcement))]> announcement)
    <$> sort_desc "created_at" (find (announcements_collection db) query).

Record CreateResponse := mk_CreateResponse {
  created_message : string;
  created_announcement : Document
}.

(** [POST /announcements/] *)
Definition create_announcement (db : DB) (now : datetime)
    (message expiration_date teacher_username : string) (start_date : option string)
  : Result (CreateResponse * DB) :=
  let teacher := find_one_teacher (teachers_collection db) teacher_username in
  if falsy teacher then Raise HTTP_401
  else if negb (truthy message) || negb (truthy (strip message)) then
    Raise HTTP_400_message
  else if negb (truthy expiration_date) then Raise HTTP_400_expiration
  else if negb (date_format_ok expiration_date start_date) then Raise HTTP_400_date
  else
    let announcement : Document :=
      {[ "message" := VStr (strip message);
         "start_date" := of_optional start_date;
         "expiration_date" := VStr expiration_date;
         "created_by" := VStr teacher_username;
         "created_at" := VStr (isoformat now +:+ "Z");
         "is_active" := VBool true ]} in
    match insert_one db announcement with
    | None => Raise HTTP_500_unhandled
    | Some (inserted_id, db') =>
        let announcement := <["_id" := VStr (str (VOid inserted_id))]> announcement in
        Ok ({| created_message := "Announcement created successfully";
               created_announcement := announcement |}, db')
    end.

(** [PUT /announcements/{announcement_id}] *)
Definition update_announcement (db : DB)
    (announcement_id message expiration_date teacher_username : string)
    (start_date : option string) (is_active : bool)
  : Result (string * DB) :=
  let teacher := find_one_teacher (teachers_collection db) teacher_username in
  if falsy teacher then Raise HTTP_401
  else
    match ObjectId announcement_id with
    | None => Raise HTTP_400_id
    | Some oid =>
        let announcement := find_one (announcements_collection db) oid in
        if falsy announcement then Raise HTTP_404
        else if negb (truthy message) || negb (truthy (strip message)) then
          Raise HTTP_400_message
        else if negb (truthy expiration_date) then Raise HTTP_400_expiration
        else if negb (date_format_ok expiration_date start_date) then
          Raise HTTP_400_date
        else
          let update_data : Document :=
            {[ "message" := VStr (strip message);
               "start_date" := of_optional start_date;
               "expiration_date" := VStr expiration_date;
               "is_active" := VBool is_active ]} in
          let result := update_one (announcements_collection db) oid update_data in
          Ok ("Announcement updated successfully", set_announcements db result.2)
    end.

(** [DELETE /announcements/{announcement_id}].  The handler makes two calls
    to the store, [find_one] and then [delete_one]; [between] is what other
    requests do to the store after the first call and before the second. *)
Definition delete_announcement_interleaved (between : DB -> DB) (db : DB)
    (announcement_id teacher_username : string)
  : Result (string * DB) :=
  let teacher := find_one_teacher (teachers_collection db) teacher_username in
  if falsy teacher then Raise HTTP_401
  else
    match ObjectId announcement_id with
    | None => Raise HTTP_400_id
    | Some oid =>
        let announcement := find_one (announcements_collection db) oid in
        if falsy announcement then Raise HTTP_404
        else
          let db := between db in
          let result := delete_one (announcements_collection db) oid in
          if result.1 =? 0 then Raise HTTP_500_delete
          else Ok ("Announcement deleted successfully", set_announcements db result.2)
    end.

(** The handler run on its own: nothing happens between its two calls. *)
Definition delete_announcement : DB -> string -> string -> Result (string * DB) :=
  delete_announcement_interleaved (fun db => db).

(** The status code a client sees. *)
Definition status {A} (r : Result A) : N :=
  match r with Ok _ => 200 | Raise e => status_code e end.

(** The store after a request: a request that raises changes nothing. *)
Definition store_after {A} (db : DB) (r : Result (A * DB)) : DB :=
  match r with Ok (_, db') => db' | Raise _ => db end.

(** ** Histories of requests *)

Inductive Request :=
| List (now : datetime) (active_only : bool)
| Create (now : datetime) (message expiration_date teacher_username : string)
         (start_date : option string)
| Update (announcement_id message expiration_date teacher_username : string)
         (start_date : option string) (is_active : bool)
| Delete (announcement_id teacher_username : string).

(** The store after one request, served on its own. *)
Definition next_store (db : DB) (req : Request) : DB :=
  match req with
  | List _ _ => db
  | Create now message expiration_date teacher_username start_date =>
      store_after db
        (create_announcement db now message expiration_date teacher_username start_date)
  | Update announcement_id message expiration_date teacher_username start_date is_active =>
      store_after db
        (update_announcement db announcement_id message expiration_date
           teacher_username start_date is_active)
  | Delete announcement_id teacher_username =>
      store_after db (delete_announcement db announcement_id teacher_username)
  end.

(** The [_id] in the body of the answer, when the request is a Create that
    succeeds. *)
Definition created_id (db : DB) (req : Request) : option string :=
  match req with
  | Create now message expiration_date teacher_username start_date =>
      match create_announcement db now message expiration_date teacher_username
              start_date with
      | Ok (r, _) => Some (str (field "_id" (created_announcement r)))
      | Raise _ => None
      end
  | _ => None
  end.

(** The store after a sequence of requests served one after the other. *)
Definition run (db : DB) (reqs : list Request) : DB := fold_left next_store reqs db.

(** The ids the successful Creates of the sequence returned, in order. *)
Fixpoint created_ids (db : DB) (reqs : list Request) : list string :=
  match reqs with
  | [] => []
  | req :: reqs' => option_list (created_id db req) ++ created_ids (next_store db req) reqs'
  end.

(** Every stored id was drawn from the generator. *)
Definition ids_issued (db : DB) : Prop :=
  ∀ k, is_Some (announcements_collection db !! k) -> k < next_oid db.

(** The document [create_announcement] builds. *)
Definition new_announcement (now : datetime)
    (message expiration_date teacher_username : string) (start_date : option string)
  : Document :=
  {[ "message" := VStr (strip message);
     "start_date" := of_optional start_date;
     "expiration_date" := VStr expiration_date;
     "created_by" := VStr teacher_username;
     "created_at" := VStr (isoformat now +:+ "Z");
     "is_active" := VBool true ]}.

(** What C9 asks of a stored announcement. *)
Definition well_formed_announcement (doc : Document) : Prop :=
  (∃ m, doc !! "message" = Some (VStr m) ∧ m ≠ "" ∧ strip m = m)
  ∧ (∃ u, doc !! "created_by" = Some (VStr u))
  ∧ (∃ b, doc !! "is_active" = Some (VBool b)).

(** ** Vocabulary of the properties *)

(** An announcement as [get_announcements] returns it: the stored fields
    and the id as a string. *)
Definition serialised (oid : N) (body : Document) : Document :=
  <["_id" := VStr (str_oid oid)]> body.

(** Active on the day written [today]: the flag is set, and the expiration
    date is [today] or later in the store's order on strings, or is absent
    (missing or null). *)
Definition active_on (today : string) (body : Document) : Prop :=
  body !! "is_active" = Some (VBool true)
  ∧ match body !! "expiration_date" with
    | Some (VStr e) => String.le today e
    | Some VNull | None => True
    | Some _ => False
    end.

Global Instance active_on_dec today body : Decision (active_on today body).
Proof.
  unfold active_on. destruct (body !! "expiration_date") as [[]|]; apply _.
Defined.



(** A date written [YYYY-MM-DD]. *)
Definition iso_date (y m d : N) : string :=
  zfill 4 y +:+ "-" +:+ zfill 2 m +:+ "-" +:+ zfill 2 d.



(** The calendar order on (year, month, day). *)
Definition date_compare (a b : N * N * N) : comparison :=
  match a, b with
  | (y1, m1, d1), (y2, m2, d2) =>
      match y1 ?= y2 with
      | Eq => match m1 ?= m2 with Eq => d1 ?= d2 | c => c end
      | c => c
      end
  end.

Definition date_le (a b : N * N * N) : Prop := date_compare a b ≠ Gt.

(** ** Sample data *)

(** A sample store: one teacher, [t1], and one announcement. *)
Definition sample_teachers : gmap string Document :=
  {[ "t1" := {[ "display_name" := VStr "Ms. Example" ]} ]}.

Definition sample_announcement : Document :=
  {[ "message" := VStr "Exam Friday";
     "start_date" := VStr "2026-01-01";
     "expiration_date" := VStr "2099-01-01";
     "created_by" := VStr "t1";
     "created_at" := VStr "2026-01-01T08:00:00Z";
     "is_active" := VBool true ]}.

Definition empty_db : DB := mk_DB ∅ sample_teachers 0.

Definition sample_db : DB := mk_DB {[ 7 := sample_announcement ]} sample_teachers 8.

Definition sample_id : string := "000000000000000000000007".

Definition absent_id : string := "00000000000000000000002a".

Definition sample_now : datetime := mk_datetime 2026 3 9 12 30 15 0.

Definition sample_update :=
  update_announcement sample_db sample_id " Moved to Monday " "2099-02-01" "t1"
    (Some "2026-02-01") false.

Definition sample_update_no_start :=
  update_announcement sample_db sample_id "Exam Friday" "2099-01-01" "t1" None true.

Definition sample_history : list Request :=
  [ Create sample_now "  Exam Friday " "2099-01-01" "t1" None;
    Create sample_now "   " "2099-01-01" "t1" None;
    Update "000000000000000000000000" " Exam moved  " "2099-02-01" "t1" (Some "2026-04-01") false;
    Create sample_now "Picnic" "2026-06-01" "t1" (Some "");
    Delete "000000000000000000000001" "t1" ].

Definition sample_final_announcement : Document :=
  {[ "message" := VStr "Exam moved";
     "start_date" := VStr "2026-04-01";
     "expiration_date" := VStr "2099-02-01";
     "created_by" := VStr "t1";
     "created_at" := VStr "2026-03-09T12:30:15Z";
     "is_active" := VBool false ]}.

(** A store for List, read on 2026-03-09: announcement 1 is active,
    2 expired the day before, 3 is switched off, 4 has no expiration date,
    5 expires that very day. *)
Definition listed (created_at expiration_date : string) (is_active : bool) : Document :=
  {[ "message" := VStr "Notice";
     "start_date" := VNull;
     "expiration_date" := VStr expiration_date;
     "created_by" := VStr "t1";
     "created_at" := VStr created_at;
     "is_active" := VBool is_active ]}.

Definition list_db : DB :=
  mk_DB {[ 1 := listed "2026-03-01T08:00:00Z" "2026-12-31" true;
           2 := listed "2026-03-02T08:00:00Z" "2026-03-08" true;
           3 := listed "2026-03-03T08:00:00Z" "2026-12-31" false;
           4 := <["expiration_date" := VNull]> (listed "2026-03-04T08:00:00Z" "" true);
           5 := listed "2026-03-05T08:00:00Z" "2026-03-09" true ]}
        sample_teachers 6.

(** Clock readings for the lists below. *)
Definition october_first : datetime := mk_datetime 2026 10 1 9 0 0 0.
Definition december_first : datetime := mk_datetime 2026 12 1 9 0 0 0.

(** Two Creates half a second apart, the first on the full second. *)
Definition half_second_apart : list Request :=
  [ Create (mk_datetime 2026 3 9 12 30 15 0) "First" "2099-01-01" "t1" None;
    Create (mk_datetime 2026 3 9 12 30 15 500000) "Second" "2099-01-01" "t1" None ].

(** Another request deletes announcement 7 while Delete is between its
    two calls. *)
Definition racing_delete (db : DB) : DB :=
  set_announcements db (delete 7 (announcements_collection db)).

(** The dictionary [update_announcement] gives to [$set]. *)
Definition update_fields (message expiration_date : string) (start_date : option string)
    (is_active : bool) : Document :=
  {[ "message" := VStr (strip message);
     "start_date" := of_optional start_date;
     "expiration_date" := VStr expiration_date;
     "is_active" := VBool is_active ]}.

(** Every stored id fits the twelve bytes of an [ObjectId]. *)
Definition ids_fit (db : DB) : Prop :=
  ∀ k, is_Some (announcements_collection db !! k) -> k < oid_bound.

Definition sample_create :=
  create_announcement sample_db sample_now " Book fair " "2026-05-01" "t1" (Some "2026-04-20").

(** An announcement changed and another created after it. *)
Definition sample_later : list Request :=
  [ Update sample_id "Changed" "2099-03-01" "t1" None false;
    Create sample_now "Other" "2099-03-01" "t1" None ].

Definition sample_changed : Document :=
  {[ "message" := VStr "Changed";
     "start_date" := VNull;
     "expiration_date" := VStr "2099-03-01";
     "created_by" := VStr "t1";
     "created_at" := VStr "2026-01-01T08:00:00Z";
     "is_active" := VBool false ]}.

(** ** Update between other requests *)

(** [PUT /announcements/{announcement_id}] as
    [delete_announcement_interleaved] has Delete: [between] is what other
    requests do to the store after [find_one] and before [update_one].
    The handler does not look at what [update_one] reports. *)
Definition update_announcement_interleaved (between : DB -> DB) (db : DB)
    (announcement_id message expiration_date teacher_username : string)
    (start_date : option string) (is_active : bool)
  : Result (string * DB) :=
  let teacher := find_one_teacher (teachers_collection db) teacher_username in
  if falsy teacher then Raise HTTP_401
  else
    match ObjectId announcement_id with
    | None => Raise HTTP_400_id
    | Some oid =>
        let announcement := find_one (announcements_collection db) oid in
        if falsy announcement then Raise HTTP_404
        else if negb (truthy message) || negb (truthy (strip message)) then
          Raise HTTP_400_message
        else if negb (truthy expiration_date) then Raise HTTP_400_expiration
        else if negb (date_format_ok expiration_date start_date) then
          Raise HTTP_400_date
        else
          let update_data : Document :=
            {[ "message" := VStr (strip message);
               "start_date" := of_optional start_date;
               "expiration_date" := VStr expiration_date;
               "is_active" := VBool is_active ]} in
          let db := between db in
          let result := update_one (announcements_collection db) oid update_data in
          Ok ("Announcement updated successfully", set_announcements db result.2)
    end.

(** The dates of a stored announcement: an expiration date [strptime]
    accepts, and a start date that is null, empty or accepted. *)
Definition dates_well_formed (doc : Document) : Prop :=
  (∃ e, doc !! "expiration_date" = Some (VStr e) ∧ is_Some (strptime_Ymd e))
  ∧ (doc !! "start_date" = Some VNull
     ∨ doc !! "start_date" = Some (VStr "")
     ∨ ∃ s, doc !! "start_date" = Some (VStr s) ∧ is_Some (strptime_Ymd s)).

(** The day of a clock reading. *)
Definition date_of (t : datetime) : N * N * N := (year t, month t, day t).

(** A clock reading whose day is a date of the calendar. *)
Definition valid_clock (t : datetime) : Prop := valid_date (year t) (month t) (day t) = true.

(** * Lemmas *)

(** ** Strings and ids *)

Lemma rstrip_idemp s : rstrip (rstrip s) = rstrip s.
Proof.
  induction s as [|c s IH]; [done|]. simpl.
  destruct (rstrip s) as [|c' r] eqn:E.
  - destruct (isspace c) eqn:Hc; [done|]. simpl. by rewrite Hc.
  - simpl in *. by rewrite IH.
Qed.

Lemma rstrip_head c s :
  isspace c = false -> ∃ r, rstrip (String c s) = String c r.
Proof.
  intros Hc. simpl. destruct (rstrip s); [rewrite Hc|]; by eexists.
Qed.

Lemma lstrip_head s : lstrip s = "" ∨ ∃ c r, lstrip s = String c r ∧ isspace c = false.
Proof.
  induction s as [|c s IH]; [by left|]. simpl.
  destruct (isspace c) eqn:Hc; [done|]. right. by exists c, s.
Qed.

Lemma strip_head s : strip s = "" ∨ ∃ c r, strip s = String c r ∧ isspace c = false.
Proof.
  unfold strip. destruct (lstrip_head s) as [-> | (c & r & -> & Hc)]; [by left|].
  right. destruct (rstrip_head c r Hc) as [r' ->]. by exists c, r'.
Qed.

(** [strip] returns a string that [strip] leaves alone. *)
Lemma strip_idemp s : strip (strip s) = strip s.
Proof.
  destruct (strip_head s) as [E | (c & r & E & Hc)].
  - by rewrite E.
  - unfold strip at 1. rewrite E. simpl lstrip. rewrite Hc, <- E.
    unfold strip. apply rstrip_idemp.
Qed.


Lemma strip_truthy s : strip s ≠ "" -> truthy s = true ∧ truthy (strip s) = true.
Proof.
  intros Hne. split.
  - destruct s; [by destruct Hne|done].
  - destruct (strip s); [by destruct Hne|done].
Qed.

Lemma list_ascii_of_string_app s1 s2 :
  list_ascii_of_string (s1 +:+ s2) = list_ascii_of_string s1 ++ list_ascii_of_string s2.
Proof. induction s1 as [|c s1 IH]; simpl; [done|]. by rewrite <- IH. Qed.

Lemma string_length_app s1 s2 :
  String.length (s1 +:+ s2) = (String.length s1 + String.length s2)%nat.
Proof. induction s1 as [|c s1 IH]; simpl; [done|]. by rewrite <- IH. Qed.

Lemma render_length base w n : String.length (render base w n) = w.
Proof.
  revert n. induction w as [|w IH]; intros n; simpl; [done|].
  rewrite string_length_app, IH. simpl. lia.
Qed.

Lemma digit_cases (P : N -> Prop) :
  P 0 -> P 1 -> P 2 -> P 3 -> P 4 -> P 5 -> P 6 -> P 7 -> P 8 -> P 9 -> P 10 ->
  P 11 -> P 12 -> P 13 -> P 14 -> P 15 -> ∀ d, d < 16 -> P d.
Proof.
  intros ???????????????? d Hd.
  destruct d as [|p]; [done|].
  do 4 (destruct p as [p|p|]; try done); lia.
Qed.

Lemma hex_value_digit_char d : d < 16 -> hex_value (digit_char d) = d.
Proof. revert d. apply digit_cases; reflexivity. Qed.

Lemma ishex_digit_char d : d < 16 -> ishex (digit_char d) = true.
Proof. revert d. apply digit_cases; reflexivity. Qed.

Lemma of_hex_snoc s c : of_hex (s +:+ String c "") = 16 * of_hex s + hex_value c.
Proof.
  unfold of_hex. by rewrite list_ascii_of_string_app, fold_left_app.
Qed.

Lemma of_hex_render w n : of_hex (render 16 w n) = n mod 16 ^ N.of_nat w.
Proof.
  revert n. induction w as [|w IH]; intros n.
  - simpl. by rewrite N.mod_1_r.
  - cbn [render]. rewrite of_hex_snoc, IH.
    rewrite hex_value_digit_char by (apply N.mod_lt; lia).
    rewrite Nat2N.inj_succ, N.pow_succ_r'.
    rewrite (N.Div0.mod_mul_r n 16). lia.
Qed.

Lemma ishex_render w n : forallb ishex (list_ascii_of_string (render 16 w n)) = true.
Proof.
  revert n. induction w as [|w IH]; intros n; [done|].
  cbn [render]. rewrite list_ascii_of_string_app, forallb_app, IH. simpl.
  rewrite ishex_digit_char; [done|]. apply N.mod_lt; lia.
Qed.

Lemma in_range_cases lo hi c :
  in_range lo hi c = true ->
  c ∈ ascii_of_nat <$> seq (nat_of_ascii lo) (nat_of_ascii hi + 1 - nat_of_ascii lo).
Proof.
  unfold in_range, ord. intros [Hlo Hhi]%andb_true_iff.
  apply N.leb_le in Hlo, Hhi. apply list_elem_of_fmap. exists (nat_of_ascii c). split.
  - symmetry. apply ascii_nat_embedding.
  - apply elem_of_seq. unfold nat_of_ascii. lia.
Qed.

Lemma length_list_ascii_of_string s :
  length (list_ascii_of_string s) = String.length s.
Proof. induction s as [|c s IH]; simpl; [done|]. by rewrite IH. Qed.

Lemma ishex_not_space c : ishex c = true -> is_ascii_space c = false.
Proof.
  unfold ishex, isdigit. rewrite !orb_true_iff. intros [[Hc | Hc] | Hc];
    apply in_range_cases in Hc; vm_compute in Hc;
    repeat (apply elem_of_cons in Hc as [-> | Hc]); try done;
    by apply elem_of_nil in Hc.
Qed.

(** On hexadecimal digits alone [bytes.fromhex] reads one byte for each
    pair, and the bytes are worth what the digits are. *)
Lemma fromhex_hex_digits n : ∀ l,
  forallb ishex l = true -> length l = (2 * n)%nat ->
  ∃ bs, fromhex l = Some bs ∧ length bs = n
        ∧ ∀ acc, fold_left (fun acc b => 256 * acc + b) bs acc
                 = fold_left (fun acc c => 16 * acc + hex_value c) l acc.
Proof.
  induction n as [|n IH]; intros l Hhex Hlen.
  - destruct l; [|done]. by exists [].
  - destruct l as [|c [|d l]]; [simpl in Hlen; lia..|]. simpl in Hhex, Hlen.
    apply andb_true_iff in Hhex as [Hc [Hd Hl]%andb_true_iff].
    destruct (IH l Hl ltac:(lia)) as (bs & Hbs & Hlen' & Hfold).
    exists ((16 * hex_value c + hex_value d) :: bs).
    cbn [fromhex]. rewrite (ishex_not_space _ Hc), Hc, Hd, Hbs.
    split; [done|]. split; [simpl; lia|].
    intros acc. cbn [fold_left]. rewrite Hfold. f_equal. lia.
Qed.

(** On twenty-four hexadecimal digits [ObjectId] is the number they
    write. *)
Lemma ObjectId_hex s :
  String.length s = 24%nat -> forallb ishex (list_ascii_of_string s) = true ->
  ObjectId s = Some (of_hex s).
Proof.
  intros Hlen Hhex. unfold ObjectId, of_hex. rewrite Hlen.
  destruct (fromhex_hex_digits 12 (list_ascii_of_string s) Hhex)
    as (bs & -> & Hbs & Hfold).
  { by rewrite length_list_ascii_of_string. }
  simpl. unfold oid_of_bytes. by rewrite Hbs, Hfold.
Qed.

Lemma pow_16_24 : 16 ^ N.of_nat 24 = oid_bound.
Proof. reflexivity. Qed.

(** The id a client reads is one the handlers accept: [ObjectId(str(oid))]
    is [oid]. *)
Lemma ObjectId_str_oid oid : oid < oid_bound -> ObjectId (str_oid oid) = Some oid.
Proof.
  intros Hlt. rewrite ObjectId_hex.
  - unfold str_oid. rewrite of_hex_render, pow_16_24. f_equal. by apply N.mod_small.
  - apply render_length.
  - apply ishex_render.
Qed.

Lemma str_oid_inj a b : a < oid_bound -> b < oid_bound -> str_oid a = str_oid b -> a = b.
Proof.
  intros Ha Hb E. apply ObjectId_str_oid in Ha, Hb. rewrite E in Ha. congruence.
Qed.

Lemma str_oid_nonempty oid : str_oid oid ≠ "".
Proof.
  intros E. pose proof (render_length 16 24 oid) as Hlen.
  unfold str_oid in E. rewrite E in Hlen. done.
Qed.

(** ** The store's primitives *)

Lemma falsy_find_one_teacher (coll : gmap string Document) username :
  falsy (find_one_teacher coll username) = bool_decide (coll !! username = None).
Proof.
  unfold find_one_teacher. destruct (coll !! username) as [body|] eqn:E; simpl.
  - by rewrite (bool_decide_eq_false_2 (_ = ∅)) by apply insert_non_empty.
  - done.
Qed.

Lemma falsy_find_one (coll : gmap N Document) oid :
  falsy (find_one coll oid) = bool_decide (coll !! oid = None).
Proof.
  unfold find_one. destruct (coll !! oid) as [body|] eqn:E; simpl.
  - by rewrite (bool_decide_eq_false_2 (_ = ∅)) by apply insert_non_empty.
  - done.
Qed.

Lemma teacher_known db username :
  is_Some (teachers_collection db !! username) ->
  falsy (find_one_teacher (teachers_collection db) username) = false.
Proof.
  intros [body E]. rewrite falsy_find_one_teacher, E. by apply bool_decide_eq_false_2.
Qed.

Lemma teacher_unknown db username :
  teachers_collection db !! username = None ->
  falsy (find_one_teacher (teachers_collection db) username) = true.
Proof.
  intros E. rewrite falsy_find_one_teacher. by apply bool_decide_eq_true_2.
Qed.

Lemma announcement_found (coll : gmap N Document) oid :
  is_Some (coll !! oid) -> falsy (find_one coll oid) = false.
Proof.
  intros [body E]. rewrite falsy_find_one, E. by apply bool_decide_eq_false_2.
Qed.

Lemma announcement_missing (coll : gmap N Document) oid :
  coll !! oid = None -> falsy (find_one coll oid) = true.
Proof.
  intros E. rewrite falsy_find_one. by apply bool_decide_eq_true_2.
Qed.

Lemma delete_one_present (coll : gmap N Document) oid :
  is_Some (coll !! oid) -> delete_one coll oid = (1, delete oid coll).
Proof. intros [body E]. unfold delete_one. by rewrite E. Qed.

Lemma delete_one_absent (coll : gmap N Document) oid :
  coll !! oid = None -> delete_one coll oid = (0, coll).
Proof. intros E. unfold delete_one. by rewrite E. Qed.

Lemma delete_one_count_zero (coll : gmap N Document) oid :
  (delete_one coll oid).1 = 0 <-> coll !! oid = None.
Proof.
  unfold delete_one. destruct (coll !! oid); simpl; split; intros; done.
Qed.

(** ** What a handler that succeeds has checked and done *)

Lemma update_announcement_ok
    db announcement_id message expiration_date teacher_username start_date is_active r db' :
  update_announcement db announcement_id message expiration_date teacher_username
    start_date is_active = Ok (r, db') ->
  ∃ oid old,
    ObjectId announcement_id = Some oid
    ∧ announcements_collection db !! oid = Some old
    ∧ is_Some (teachers_collection db !! teacher_username)
    ∧ strip message ≠ ""
    ∧ date_format_ok expiration_date start_date = true
    ∧ db' = set_announcements db
              (<[oid := ({[ "message" := VStr (strip message);
                            "start_date" := of_optional start_date;
                            "expiration_date" := VStr expiration_date;
                            "is_active" := VBool is_active ]} : Document) ∪ old]>
                 (announcements_collection db)).
Proof.
  unfold update_announcement. rewrite falsy_find_one_teacher.
  case_bool_decide as Hteacher; [done|].
  destruct (ObjectId announcement_id) as [oid|] eqn:Hid; [|done].
  rewrite falsy_find_one. case_bool_decide as Hfound; [done|].
  destruct (announcements_collection db !! oid) as [old|] eqn:Hold; [|done].
  destruct (negb (truthy message) || negb (truthy (strip message))) eqn:Hmsg; [done|].
  destruct (negb (truthy expiration_date)); [done|].
  destruct (date_format_ok expiration_date start_date) eqn:Hdates; [|done].
  simpl. intros [= <- <-]. exists oid, old.
  apply orb_false_elim in Hmsg as [_ Hstrip].
  repeat split; try done.
  - by apply not_eq_None_Some.
  - intros E. rewrite E in Hstrip. done.
  - unfold update_one. by rewrite Hold.
Qed.

Lemma create_announcement_ok
    db now message expiration_date teacher_username start_date r db' :
  create_announcement db now message expiration_date teacher_username start_date
    = Ok (r, db') ->
  is_Some (teachers_collection db !! teacher_username)
  ∧ strip message ≠ ""
  ∧ date_format_ok expiration_date start_date = true
  ∧ announcements_collection db !! next_oid db = None
  ∧ r = {| created_message := "Announcement created successfully";
           created_announcement :=
             <["_id" := VStr (str_oid (next_oid db))]>
               (new_announcement now message expiration_date teacher_username start_date) |}
  ∧ db' = {| announcements_collection :=
               <[next_oid db :=
                   new_announcement now message expiration_date teacher_username start_date]>
                 (announcements_collection db);
             teachers_collection := teachers_collection db;
             next_oid := next_oid db + 1 |}.
Proof.
  unfold create_announcement, insert_one. rewrite falsy_find_one_teacher.
  case_bool_decide as Hteacher; [done|].
  destruct (negb (truthy message) || negb (truthy (strip message))) eqn:Hmsg; [done|].
  destruct (negb (truthy expiration_date)); [done|].
  destruct (date_format_ok expiration_date start_date) eqn:Hdates; [|done].
  destruct (announcements_collection db !! next_oid db) eqn:Hfree; [done|].
  simpl. intros [= <- <-].
  apply orb_false_elim in Hmsg as [_ Hstrip].
  repeat split; try done.
  - by apply not_eq_None_Some.
  - intros E. rewrite E in Hstrip. done.
Qed.

Lemma create_announcement_succeeds
    db now message expiration_date teacher_username start_date :
  is_Some (teachers_collection db !! teacher_username) ->
  strip message ≠ "" ->
  date_format_ok expiration_date start_date = true ->
  announcements_collection db !! next_oid db = None ->
  create_announcement db now message expiration_date teacher_username start_date
  = Ok ({| created_message := "Announcement created successfully";
           created_announcement :=
             <["_id" := VStr (str_oid (next_oid db))]>
               (new_announcement now message expiration_date teacher_username start_date) |},
        {| announcements_collection :=
             <[next_oid db :=
                 new_announcement now message expiration_date teacher_username start_date]>
               (announcements_collection db);
           teachers_collection := teachers_collection db;
           next_oid := next_oid db + 1 |}).
Proof.
  intros Hteacher Hmsg Hdates Hfree. unfold create_announcement, insert_one.
  rewrite (teacher_known _ _ Hteacher).
  destruct (strip_truthy _ Hmsg) as [-> ->]. simpl.
  assert (Hexp : truthy expiration_date = true).
  { destruct expiration_date; [|done]. by vm_compute in Hdates. }
  by rewrite Hexp, Hdates, Hfree.
Qed.

Lemma delete_announcement_ok db announcement_id teacher_username r db' :
  delete_announcement db announcement_id teacher_username = Ok (r, db') ->
  ∃ oid, ObjectId announcement_id = Some oid
         ∧ is_Some (announcements_collection db !! oid)
         ∧ db' = set_announcements db (delete oid (announcements_collection db)).
Proof.
  unfold delete_announcement, delete_announcement_interleaved.
  destruct (falsy (find_one_teacher _ _)); [done|].
  destruct (ObjectId announcement_id) as [oid|]; [|done].
  rewrite falsy_find_one. case_bool_decide as Hfound; [done|].
  apply not_eq_None_Some in Hfound.
  rewrite (delete_one_present _ _ Hfound). simpl. intros [= <- <-]. by exists oid.
Qed.

(** How each kind of request changes the store. *)
Lemma next_store_cases db req :
  next_store db req = db
  ∨ (∃ now message expiration_date teacher_username start_date,
       strip message ≠ ""
       ∧ announcements_collection db !! next_oid db = None
       ∧ created_id db req = Some (str_oid (next_oid db))
       ∧ next_store db req =
           {| announcements_collection :=
                <[next_oid db :=
                    new_announcement now message expiration_date teacher_username start_date]>
                  (announcements_collection db);
              teachers_collection := teachers_collection db;
              next_oid := next_oid db + 1 |})
  ∨ (∃ oid old update_data message,
       announcements_collection db !! oid = Some old
       ∧ strip message ≠ ""
       ∧ update_data !! "message" = Some (VStr (strip message))
       ∧ update_data !! "created_by" = None
       ∧ (∃ b, update_data !! "is_active" = Some (VBool b))
       ∧ created_id db req = None
       ∧ next_store db req = set_announcements db
           (<[oid := update_data ∪ old]> (announcements_collection db)))
  ∨ (∃ oid, created_id db req = None
            ∧ next_store db req =
                set_announcements db (delete oid (announcements_collection db))).
Proof.
  destruct req as [now active_only
                  | now message expiration_date teacher_username start_date
                  | announcement_id message expiration_date teacher_username start_date is_active
                  | announcement_id teacher_username]; simpl.
  - by left.
  - destruct (create_announcement _ _ _ _ _ _) as [[r db']|e] eqn:Hc; [|by left].
    apply create_announcement_ok in Hc as (_ & Hmsg & _ & Hfree & -> & ->).
    right; left. exists now, message, expiration_date, teacher_username, start_date.
    repeat split; try done.
  - destruct (update_announcement _ _ _ _ _ _ _) as [[r db']|e] eqn:Hu; [|by left].
    apply update_announcement_ok in Hu as (oid & old & _ & Hold & _ & Hmsg & _ & ->).
    right; right; left. eexists oid, old, _, message.
    repeat split; try done. by eexists.
  - destruct (delete_announcement _ _ _) as [[r db']|e] eqn:Hd; [|by left].
    apply delete_announcement_ok in Hd as (oid & _ & _ & ->).
    right; right; right. by exists oid.
Qed.

Lemma next_store_next_oid db req : next_oid db <= next_oid (next_store db req).
Proof.
  destruct (next_store_cases db req)
    as [-> | [(? & ? & ? & ? & ? & _ & _ & _ & ->)
           | [(? & ? & ? & ? & _ & _ & _ & _ & _ & _ & ->) | (? & _ & ->)]]];
    simpl; lia.
Qed.

Lemma next_store_ids_issued db req : ids_issued db -> ids_issued (next_store db req).
Proof.
  intros Hdb.
  destruct (next_store_cases db req)
    as [-> | [(? & ? & ? & ? & ? & _ & _ & _ & ->)
           | [(oid & old & ? & ? & Hold & _ & _ & _ & _ & _ & ->) | (oid & _ & ->)]]];
    [done|..]; intros k; simpl.
  - destruct (decide (next_oid db = k)) as [<- | Hk]; [lia|].
    rewrite lookup_insert_ne by done. intros Hs%Hdb. lia.
  - destruct (decide (oid = k)) as [<- | Hk].
    + intros _. apply Hdb. by eexists.
    + rewrite lookup_insert_ne by done. apply Hdb.
  - destruct (decide (oid = k)) as [<- | Hk].
    + rewrite lookup_delete_eq. by intros [? ?].
    + rewrite lookup_delete_ne by done. apply Hdb.
Qed.

Lemma run_next_oid db reqs : next_oid db <= next_oid (run db reqs).
Proof.
  revert db. induction reqs as [|req reqs IH]; intros db; simpl; [lia|].
  etrans; [apply (next_store_next_oid db req) | apply IH].
Qed.

Lemma run_ids_issued db reqs : ids_issued db -> ids_issued (run db reqs).
Proof.
  revert db. induction reqs as [|req reqs IH]; intros db Hdb; simpl; [done|].
  apply IH. by apply next_store_ids_issued.
Qed.

(** The ids handed out during a history are those the generator produced. *)
Lemma created_ids_issued db reqs s :
  s ∈ created_ids db reqs ->
  ∃ k, next_oid db <= k ∧ k < next_oid (run db reqs) ∧ s = str_oid k.
Proof.
  revert db. induction reqs as [|req reqs IH]; intros db; simpl.
  - by intros ?%elem_of_nil.
  - pose proof (next_store_next_oid db req) as Hmono.
    pose proof (run_next_oid (next_store db req) reqs) as Hmono'.
    rewrite elem_of_app. intros [Hnow | Hlater].
    + destruct (next_store_cases db req)
        as [Hsame | [(? & ? & ? & ? & ? & _ & _ & Hid & Hnext)
               | [(? & ? & ? & ? & _ & _ & _ & _ & _ & Hid & _) | (? & Hid & _)]]].
      * destruct (created_id db req) as [s'|] eqn:Hid; [|by apply elem_of_nil in Hnow].
        exfalso. destruct req; try done. simpl in Hid, Hsame.
        destruct (create_announcement _ _ _ _ _ _) as [[r db']|e] eqn:Hc; [|done].
        apply create_announcement_ok in Hc as (_ & _ & _ & _ & _ & ->).
        simpl in Hsame. apply (f_equal next_oid) in Hsame. simpl in Hsame. lia.
      * rewrite Hid in Hnow. simpl in Hnow. apply list_elem_of_singleton in Hnow as ->.
        exists (next_oid db). rewrite Hnext in Hmono' |- *. simpl in Hmono'.
        repeat split; [lia | lia].
      * rewrite Hid in Hnow. by apply elem_of_nil in Hnow.
      * rewrite Hid in Hnow. by apply elem_of_nil in Hnow.
    + destruct (IH _ Hlater) as (k & ? & ? & ->). exists k. repeat split; [lia | done].
Qed.

Lemma new_announcement_well_formed now message expiration_date teacher_username start_date :
  strip message ≠ "" ->
  well_formed_announcement
    (new_announcement now message expiration_date teacher_username start_date).
Proof.
  intros Hmsg. repeat split.
  - exists (strip message). split; [done|]. split; [done | apply strip_idemp].
  - by exists teacher_username.
  - by exists true.
Qed.

Lemma next_store_well_formed db req :
  (∀ oid doc, announcements_collection db !! oid = Some doc -> well_formed_announcement doc) ->
  ∀ oid doc, announcements_collection (next_store db req) !! oid = Some doc ->
             well_formed_announcement doc.
Proof.
  intros Hdb.
  destruct (next_store_cases db req)
    as [-> | [(now & message & ? & ? & ? & Hmsg & _ & _ & ->)
           | [(oid & old & update_data & message & Hold & Hmsg & Hm & Hby & [b Hact] & _ & ->)
             | (oid & _ & ->)]]];
    [done|..]; intros k doc; simpl.
  - destruct (decide (next_oid db = k)) as [<- | Hk].
    + rewrite lookup_insert_eq. intros [= <-]. by apply new_announcement_well_formed.
    + rewrite lookup_insert_ne by done. apply Hdb.
  - destruct (decide (oid = k)) as [<- | Hk].
    + rewrite lookup_insert_eq. intros [= <-].
      destruct (Hdb _ _ Hold) as (_ & [u Hu] & _). repeat split.
      * exists (strip message). split; [by apply lookup_union_Some_l|].
        split; [done | apply strip_idemp].
      * exists u. by rewrite lookup_union_r.
      * exists b. by apply lookup_union_Some_l.
    + rewrite lookup_insert_ne by done. apply Hdb.
  - destruct (decide (oid = k)) as [<- | Hk].
    + by rewrite lookup_delete_eq.
    + rewrite lookup_delete_ne by done. apply Hdb.
Qed.

Lemma run_well_formed db reqs :
  (∀ oid doc, announcements_collection db !! oid = Some doc -> well_formed_announcement doc) ->
  ∀ oid doc, announcements_collection (run db reqs) !! oid = Some doc ->
             well_formed_announcement doc.
Proof.
  revert db. induction reqs as [|req reqs IH]; intros db Hdb; simpl; [done|].
  apply IH. by apply next_store_well_formed.
Qed.

Lemma date_format_ok_intro expiration_date start_date :
  is_Some (strptime_Ymd expiration_date) ->
  (∀ s, start_date = Some s -> is_Some (strptime_Ymd s)) ->
  date_format_ok expiration_date start_date = true.
Proof.
  intros [d Hexp] Hstart. unfold date_format_ok. rewrite Hexp.
  destruct start_date as [s|]; [|done].
  destruct (truthy s); [|done]. apply bool_decide_eq_true_2. by apply Hstart.
Qed.

(** ** The order of the store and the query of List *)

Global Instance value_le_total : Total value_le.
Proof.
  intros [|[]|x|x] [|[]|y|y]; simpl; try (by left); try (by right);
    try (left; lia); try (right; lia).
  - apply (total String.le).
  - lia.
Qed.

Global Instance value_le_trans : Transitive value_le.
Proof.
  intros [|[]|x|x] [|[]|y|y] [|[]|z|z]; simpl; try done; try lia.
  apply (transitivity (R := String.le)).
Qed.

Global Instance desc_by_total f : Total (desc_by f).
Proof. intros a b. unfold desc_by. destruct (total value_le (field f a) (field f b)); auto. Qed.

Global Instance desc_by_trans f : Transitive (desc_by f).
Proof. intros a b c Hab Hbc. unfold desc_by in *. by etrans. Qed.

Lemma filter_fmap_list {A B} (f : A -> B) (P : B -> Prop) `{∀ x, Decision (P x)} (l : list A) :
  filter P (f <$> l) = f <$> filter (fun x => P (f x)) l.
Proof.
  induction l as [|x l IH]; [done|]. csimpl.
  rewrite !filter_cons. destruct (decide (P (f x))); csimpl; by rewrite IH.
Qed.

Lemma matches_active_query today oid body :
  matches (Q_all [Q_eq "is_active" (VBool true);
                  Q_or [Q_gte "expiration_date" (VStr today);
                        Q_eq "expiration_date" VNull]])
          (with_id oid body) = true
  <-> active_on today body.
Proof.
  unfold active_on, with_id. cbn [matches forallb existsb].
  rewrite !lookup_insert_ne by done.
  rewrite !andb_true_r, orb_false_r, andb_true_iff, orb_true_iff.
  rewrite !bool_decide_eq_true.
  destruct (body !! "expiration_date") as [[|b|e|o]|]; simpl;
    rewrite ?bool_decide_eq_true; split; intros [Hact Hexp]; (split; [done|]);
    try done; try (destruct Hexp as [Hexp|Hexp]; try done; try (by destruct Hexp as [? ?]));
    try (by left; split); try (by right; right); try (by right; left);
    try (destruct Hexp as [? | ?]; done).
Qed.

Lemma matches_empty_query doc : matches (Q_all []) doc = true.
Proof. done. Qed.

Lemma serialised_with_id oid body :
  <["_id" := VStr (str (field "_id" (with_id oid body)))]> (with_id oid body)
  = serialised oid body.
Proof.
  unfold serialised, with_id, field. rewrite lookup_insert_eq. simpl.
  apply insert_insert_eq.
Qed.

Lemma find_active today (coll : gmap N Document) :
  find coll (Q_all [Q_eq "is_active" (VBool true);
                    Q_or [Q_gte "expiration_date" (VStr today);
                          Q_eq "expiration_date" VNull]])
  = (fun kb => with_id kb.1 kb.2)
      <$> filter (fun kb => active_on today kb.2) (map_to_list coll).
Proof.
  unfold find, documents. rewrite filter_fmap_list. f_equal.
  apply list_filter_iff. intros [k body]. simpl. apply matches_active_query.
Qed.

Lemma find_all (coll : gmap N Document) : find coll (Q_all []) = documents coll.
Proof.
  unfold find. induction (documents coll) as [|doc docs IH]; [done|].
  rewrite filter_cons_True by done. by rewrite IH.
Qed.

Lemma serialise_sorted (docs : list (N * Document)) :
  (fun announcement => <["_id" := VStr (str (field "_id" announcement))]> announcement)
    <$> sort_desc "created_at" ((fun kb => with_id kb.1 kb.2) <$> docs)
  ≡ₚ (fun kb => serialised kb.1 kb.2) <$> docs.
Proof.
  unfold sort_desc. rewrite merge_sort_Permutation, <- list_fmap_compose.
  erewrite list_fmap_ext; [done|]. intros _ [k body] _. simpl.
  apply serialised_with_id.
Qed.

Lemma serialise_keeps_order (docs : list Document) :
  StronglySorted (desc_by "created_at") docs ->
  StronglySorted (desc_by "created_at")
    ((fun announcement => <["_id" := VStr (str (field "_id" announcement))]> announcement)
       <$> docs).
Proof.
  apply StronglySorted_fmap. intros a b. unfold desc_by, field.
  by rewrite !lookup_insert_ne.
Qed.

(** ** What [strptime] accepts *)




















(** Case analysis on a bounded number: every binary numeral within the
    bound. *)
Ltac enum_N n :=
  destruct n as [|?p]; [try lia|];
  repeat (match goal with p : positive |- _ => destruct p as [p|p|] end; try lia).






Lemma valid_date_bounds y m d :
  valid_date y m d = true -> 1 <= y <= 9999 ∧ 1 <= m <= 12 ∧ 1 <= d <= 31.
Proof.
  unfold valid_date, MINYEAR, MAXYEAR, days_in_month.
  rewrite !andb_true_iff, !N.leb_le. intros (((((? & ?) & ?) & ?) & ?) & Hd).
  repeat split; try done.
  destruct (m =? 2); [destruct (is_leap y); lia|].
  destruct ((m =? 4) || (m =? 6) || (m =? 9) || (m =? 11)); lia.
Qed.



Lemma date_format_ok_true expiration_date start_date :
  date_format_ok expiration_date start_date = true ->
  is_Some (strptime_Ymd expiration_date)
  ∧ ∀ s, start_date = Some s -> s ≠ "" -> is_Some (strptime_Ymd s).
Proof.
  unfold date_format_ok.
  destruct (strptime_Ymd expiration_date) as [date|]; [|done]. intros H.
  split; [by eexists|]. intros s -> Hs.
  destruct s; [done|]. simpl in H. by apply bool_decide_eq_true in H.
Qed.

(** ** Dates written [YYYY-MM-DD] compare as dates *)

Lemma ascii_compare_digit a b :
  a < 10 -> b < 10 -> Ascii.compare (digit_char a) (digit_char b) = (a ?= b).
Proof. intros Ha Hb. enum_N a; enum_N b; reflexivity. Qed.

Lemma string_compare_app a1 a2 r1 r2 :
  String.length a1 = String.length a2 ->
  String.compare (a1 +:+ r1) (a2 +:+ r2)
  = match String.compare a1 a2 with Eq => String.compare r1 r2 | c => c end.
Proof.
  revert a2. induction a1 as [|c1 a1 IH]; intros [|c2 a2]; simpl; try done.
  intros [= Hlen].
  change (String c1 a1 +:+ r1) with (String c1 (a1 +:+ r1)).
  change (String c2 a2 +:+ r2) with (String c2 (a2 +:+ r2)).
  cbn [String.compare]. destruct (Ascii.compare c1 c2); [by apply IH | done | done].
Qed.

Lemma compare_lexicographic n m :
  match n / 10 ?= m / 10 with Eq => n mod 10 ?= m mod 10 | c => c end = (n ?= m).
Proof.
  pose proof (N.div_mod n 10 ltac:(lia)) as Hn. pose proof (N.div_mod m 10 ltac:(lia)) as Hm.
  pose proof (N.mod_lt n 10 ltac:(lia)). pose proof (N.mod_lt m 10 ltac:(lia)).
  revert Hn Hm. generalize dependent (n mod 10). generalize dependent (m mod 10).
  generalize (n / 10) (m / 10). intros a c d Hd b Hb -> ->.
  symmetry.
  destruct (N.compare_spec a c); [destruct (N.compare_spec b d)|..];
    first [ apply N.compare_eq_iff | apply N.compare_lt_iff | apply N.compare_gt_iff ]; lia.
Qed.

Lemma render_compare w n m :
  n < 10 ^ N.of_nat w -> m < 10 ^ N.of_nat w ->
  String.compare (render 10 w n) (render 10 w m) = (n ?= m).
Proof.
  revert n m. induction w as [|w IH]; intros n m Hn Hm.
  - simpl in *. assert (n = 0) as -> by lia. by assert (m = 0) as -> by lia.
  - rewrite Nat2N.inj_succ, N.pow_succ_r' in Hn, Hm.
    cbn [render]. rewrite string_compare_app by (by rewrite !render_length).
    rewrite IH by (apply N.Div0.div_lt_upper_bound; lia).
    cbn [String.compare].
    rewrite ascii_compare_digit by (apply N.mod_lt; lia).
    rewrite <- (compare_lexicographic n m).
    by destruct (n / 10 ?= m / 10), (n mod 10 ?= m mod 10).
Qed.

Lemma iso_date_compare y1 m1 d1 y2 m2 d2 :
  y1 < 10000 -> m1 < 100 -> d1 < 100 -> y2 < 10000 -> m2 < 100 -> d2 < 100 ->
  String.compare (iso_date y1 m1 d1) (iso_date y2 m2 d2)
  = date_compare (y1, m1, d1) (y2, m2, d2).
Proof.
  intros. unfold iso_date, date_compare, zfill.
  rewrite string_compare_app by (by rewrite !render_length).
  rewrite (render_compare 4) by done.
  destruct (y1 ?= y2); [|done..].
  change ("-" +:+ ?x) with (String "-" x). cbn [String.compare].
  change (Ascii.compare "-" "-") with Eq. cbv iota.
  rewrite string_compare_app by (by rewrite !render_length).
  rewrite (render_compare 2) by done.
  destruct (m1 ?= m2); [|done..].
  change ("-" +:+ ?x) with (String "-" x). cbn [String.compare].
  change (Ascii.compare "-" "-") with Eq. cbv iota.
  by apply (render_compare 2).
Qed.

(** On dates written [YYYY-MM-DD] the store's order on strings is the order
    of the calendar. *)
Lemma iso_date_le y1 m1 d1 y2 m2 d2 :
  y1 < 10000 -> m1 < 100 -> d1 < 100 -> y2 < 10000 -> m2 < 100 -> d2 < 100 ->
  String.le (iso_date y1 m1 d1) (iso_date y2 m2 d2)
  <-> date_le (y1, m1, d1) (y2, m2, d2).
Proof.
  intros. unfold String.le, String.leb, date_le.
  rewrite iso_date_compare by done.
  destruct (date_compare _ _); simpl; split; done.
Qed.

(** From year 1000 on [strftime] writes the date [YYYY-MM-DD]. *)
Lemma strftime_Ymd_iso_date t :
  1000 <= year t -> strftime_Ymd t = iso_date (year t) (month t) (day t).
Proof.
  intros Hy. unfold strftime_Ymd, iso_date, decimal.
  by rewrite !(proj2 (N.ltb_ge _ _)) by lia.
Qed.

(** * The claims *)

(** ** Create *)

(** C1: a Create request from a known teacher, with a message that is not
    blank and dates that parse, made after any history of requests: it
    succeeds; the collection gains exactly one document, under a new id;
    the document is active, attributed to the teacher and stamped with the
    server's clock; the answer carries it with its id as a non-empty
    string, different from the id every earlier Create of the history
    returned and from the id of every document of the store, before and
    after the history. *)
Theorem create_inserts_one_fresh_announcement
    db0 history now message expiration_date teacher_username start_date :
  ids_issued db0 ->
  next_oid (run db0 history) < oid_bound ->
  is_Some (teachers_collection (run db0 history) !! teacher_username) ->
  strip message ≠ "" ->
  is_Some (strptime_Ymd expiration_date) ->
  (∀ s, start_date = Some s -> is_Some (strptime_Ymd s)) ->
  ∃ oid doc db',
    create_announcement (run db0 history) now message expiration_date teacher_username
      start_date
    = Ok ({| created_message := "Announcement created successfully";
             created_announcement := <["_id" := VStr (str_oid oid)]> doc |}, db')
    ∧ announcements_collection (run db0 history) !! oid = None
    ∧ announcements_collection db'
      = <[oid := doc]> (announcements_collection (run db0 history))
    ∧ size (announcements_collection db')
      = S (size (announcements_collection (run db0 history)))
    ∧ teachers_collection db' = teachers_collection (run db0 history)
    ∧ doc !! "is_active" = Some (VBool true)
    ∧ doc !! "created_by" = Some (VStr teacher_username)
    ∧ doc !! "created_at" = Some (VStr (isoformat now +:+ "Z"))
    ∧ doc !! "message" = Some (VStr (strip message))
    ∧ doc !! "expiration_date" = Some (VStr expiration_date)
    ∧ doc !! "start_date" = Some (of_optional start_date)
    ∧ str_oid oid ≠ ""
    ∧ ObjectId (str_oid oid) = Some oid
    ∧ (str_oid oid ∉ created_ids db0 history)
    ∧ (∀ k, is_Some (announcements_collection db0 !! k) -> str_oid k ≠ str_oid oid)
    ∧ (∀ k, is_Some (announcements_collection (run db0 history) !! k) ->
            str_oid k ≠ str_oid oid).
Proof.
  intros Hdb0 Hbound Hteacher Hmsg Hexp Hstart.
  pose proof (run_ids_issued _ history Hdb0) as Hdb.
  pose proof (run_next_oid db0 history) as Hmono.
  set (db := run db0 history) in *.
  assert (Hfree : announcements_collection db !! next_oid db = None).
  { destruct (announcements_collection db !! next_oid db) eqn:E; [|done].
    assert (next_oid db < next_oid db) by (apply Hdb; by eexists). lia. }
  assert (Hdistinct : ∀ k, k < next_oid db -> str_oid k ≠ str_oid (next_oid db)).
  { intros k Hk E. apply str_oid_inj in E; lia. }
  exists (next_oid db),
    (new_announcement now message expiration_date teacher_username start_date).
  eexists. split.
  { apply create_announcement_succeeds; try done. by apply date_format_ok_intro. }
  simpl. repeat split; try done.
  - by apply map_size_insert_None.
  - by apply ObjectId_str_oid.
  - intros (k & _ & Hk & E)%created_ids_issued. by apply (Hdistinct k).
  - intros k Hk. apply Hdistinct. apply Hdb0 in Hk. lia.
  - intros k Hk. apply Hdistinct. by apply Hdb.
Qed.

Lemma create_inserts_one_fresh_announcement_witness :
  created_ids empty_db sample_history
    = ["000000000000000000000000"; "000000000000000000000001"]
  ∧ ∃ oid doc db',
      create_announcement (run empty_db sample_history) sample_now "Exam Friday"
        "2099-01-01" "t1" (Some "2026-03-10")
      = Ok ({| created_message := "Announcement created successfully";
               created_announcement := <["_id" := VStr (str_oid oid)]> doc |}, db')
      ∧ doc !! "is_active" = Some (VBool true)
      ∧ str_oid oid ∉ created_ids empty_db sample_history.
Proof.
  split; [reflexivity|].
  assert (H0 : ids_issued empty_db).
  { intros k [doc Hk]. by vm_compute in Hk. }
  assert (Hb : next_oid (run empty_db sample_history) < oid_bound) by reflexivity.
  assert (Ht : is_Some (teachers_collection (run empty_db sample_history) !! "t1"))
    by (eexists; reflexivity).
  assert (Hm : strip "Exam Friday" ≠ "") by done.
  assert (He : is_Some (strptime_Ymd "2099-01-01")) by (eexists; reflexivity).
  assert (Hs : ∀ s, Some "2026-03-10" = Some s -> is_Some (strptime_Ymd s)).
  { intros s [= <-]. eexists; reflexivity. }
  destruct (create_inserts_one_fresh_announcement empty_db sample_history sample_now
              "Exam Friday" "2099-01-01" "t1" (Some "2026-03-10") H0 Hb Ht Hm He Hs)
    as (oid & doc & db' & Hc & _ & _ & _ & _ & Hact & _ & _ & _ & _ & _ & _ & _ & Hnew & _).
  exists oid, doc, db'. split; [exact Hc|]. split; [exact Hact | exact Hnew].
Defined.

(** ** List *)

(** C2: the code at three inputs where it leaves the claim.  Create lets
    ["2026-2-1"] through and stores the text; on 1 October 2026 List still
    has the announcement, eight months after its expiration date.  Create
    lets ["2026-12- 9"] through; on 1 December 2026, eight days before its
    expiration date, List has lost it.  Of two announcements created half a
    second apart, the first on the full second, List has the earlier one
    first. *)
Theorem list_compares_dates_as_text :
  (∃ r db',
     create_announcement empty_db sample_now "Fair" "2026-2-1" "t1" None = Ok (r, db')
     ∧ strptime_Ymd "2026-2-1" = Some (2026, 2, 1)
     ∧ date_compare (2026, 2, 1) (date_of october_first) = Lt
     ∧ get_announcements db' october_first true = [created_announcement r])
  ∧ (∃ r db',
       create_announcement empty_db sample_now "Fair" "2026-12- 9" "t1" None = Ok (r, db')
       ∧ strptime_Ymd "2026-12- 9" = Some (2026, 12, 9)
       ∧ date_compare (date_of december_first) (2026, 12, 9) = Lt
       ∧ get_announcements db' december_first true = [])
  ∧ (fun doc => (doc !! "message", doc !! "created_at"))
      <$> get_announcements (run empty_db half_second_apart) sample_now true
    = [ (Some (VStr "First"), Some (VStr "2026-03-09T12:30:15Z"));
        (Some (VStr "Second"), Some (VStr "2026-03-09T12:30:15.500000Z")) ].
Proof.
  split; [|split].
  - eexists _, _. split.
    { apply create_announcement_succeeds; [by eexists | done | reflexivity | reflexivity]. }
    split; [reflexivity|]. split; [reflexivity|]. vm_compute. reflexivity.
  - eexists _, _. split.
    { apply create_announcement_succeeds; [by eexists | done | reflexivity | reflexivity]. }
    split; [reflexivity|]. split; [reflexivity|]. vm_compute. reflexivity.
  - vm_compute. reflexivity.
Qed.

(** ** Date validation *)




(** ** Update of a missing document *)

(** C4: Update by a known teacher with a well-formed id that no document
    has is answered 404, whatever the message, the dates and the flag are. *)
Theorem update_missing_is_not_found
    db announcement_id oid message expiration_date teacher_username start_date is_active :
  is_Some (teachers_collection db !! teacher_username) ->
  ObjectId announcement_id = Some oid ->
  announcements_collection db !! oid = None ->
  update_announcement db announcement_id message expiration_date teacher_username
    start_date is_active = Raise HTTP_404
  ∧ status_code HTTP_404 = 404.
Proof.
  intros Hteacher Hid Hmissing. unfold update_announcement.
  rewrite (teacher_known _ _ Hteacher), Hid.
  by rewrite (announcement_missing _ _ Hmissing).
Qed.

Lemma update_missing_is_not_found_witness :
  status (update_announcement sample_db absent_id "" "2024/01/01" "t1" (Some "x") true) = 404.
Proof.
  assert (Ht : is_Some (teachers_collection sample_db !! "t1")) by (eexists; reflexivity).
  assert (Hid : ObjectId absent_id = Some 42) by reflexivity.
  assert (Hm : announcements_collection sample_db !! 42 = None) by reflexivity.
  destruct (update_missing_is_not_found sample_db absent_id 42 "" "2024/01/01" "t1"
              (Some "x") true Ht Hid Hm) as [-> _].
  reflexivity.
Defined.

(** ** Delete *)

(** C5: deleting an existing announcement twice, as a known teacher: the
    first call succeeds and the document is gone from the store, the
    second is answered 404. *)
Theorem delete_twice db announcement_id oid teacher_username :
  is_Some (teachers_collection db !! teacher_username) ->
  ObjectId announcement_id = Some oid ->
  is_Some (announcements_collection db !! oid) ->
  ∃ db1,
    delete_announcement db announcement_id teacher_username
      = Ok ("Announcement deleted successfully", db1)
    ∧ announcements_collection db1 = delete oid (announcements_collection db)
    ∧ announcements_collection db1 !! oid = None
    ∧ find_one (announcements_collection db1) oid = None
    ∧ delete_announcement db1 announcement_id teacher_username = Raise HTTP_404
    ∧ status_code HTTP_404 = 404.
Proof.
  intros Hteacher Hid Hfound.
  exists (set_announcements db (delete oid (announcements_collection db))).
  assert (Hgone : delete oid (announcements_collection db) !! oid = None)
    by apply lookup_delete_eq.
  repeat split; try done.
  - unfold delete_announcement, delete_announcement_interleaved.
    rewrite (teacher_known _ _ Hteacher), Hid, (announcement_found _ _ Hfound).
    by rewrite (delete_one_present _ _ Hfound).
  - unfold find_one. simpl. by rewrite Hgone.
  - unfold delete_announcement, delete_announcement_interleaved.
    cbn [set_announcements teachers_collection announcements_collection].
    rewrite (teacher_known _ _ Hteacher), Hid.
    by rewrite (announcement_missing _ _ Hgone).
Qed.

Lemma delete_twice_witness :
  status (delete_announcement sample_db sample_id "t1") = 200
  ∧ status (delete_announcement
              (store_after sample_db (delete_announcement sample_db sample_id "t1"))
              sample_id "t1") = 404.
Proof.
  assert (Ht : is_Some (teachers_collection sample_db !! "t1")) by (eexists; reflexivity).
  assert (Hid : ObjectId sample_id = Some 7) by reflexivity.
  assert (Hf : is_Some (announcements_collection sample_db !! 7)) by (eexists; reflexivity).
  destruct (delete_twice sample_db sample_id 7 "t1" Ht Hid Hf)
    as (db1 & H1 & _ & _ & _ & H2 & _).
  rewrite H1. simpl. rewrite H2. split; reflexivity.
Defined.

(** C6: Delete is answered 500 exactly when the existence check found the
    document and [delete_one] then reports no document removed, which takes
    another request removing it in between; run on its own, Delete is never
    answered 500. *)
Theorem delete_internal_error_iff_lost_race :
  (∀ between db announcement_id teacher_username,
     status (delete_announcement_interleaved between db announcement_id teacher_username)
       = 500
     <-> is_Some (teachers_collection db !! teacher_username)
         ∧ ∃ oid, ObjectId announcement_id = Some oid
                  ∧ is_Some (find_one (announcements_collection db) oid)
                  ∧ (delete_one (announcements_collection (between db)) oid).1 = 0)
  ∧ (∀ db announcement_id teacher_username,
       status (delete_announcement db announcement_id teacher_username) ≠ 500).
Proof.
  assert (Hiff : ∀ between db announcement_id teacher_username,
     status (delete_announcement_interleaved between db announcement_id teacher_username)
       = 500
     <-> is_Some (teachers_collection db !! teacher_username)
         ∧ ∃ oid, ObjectId announcement_id = Some oid
                  ∧ is_Some (find_one (announcements_collection db) oid)
                  ∧ (delete_one (announcements_collection (between db)) oid).1 = 0).
  { intros between db announcement_id teacher_username.
    unfold delete_announcement_interleaved.
    rewrite falsy_find_one_teacher. case_bool_decide as Hteacher.
    { split; [done|]. intros [[? Hsome] _]. congruence. }
    destruct (ObjectId announcement_id) as [oid|] eqn:Hid.
    2: { split; [done|]. intros (_ & ? & ? & _). done. }
    rewrite falsy_find_one. case_bool_decide as Hfound.
    { split; [done|]. intros (_ & oid' & [= <-] & [? Hsome] & _).
      unfold find_one in Hsome. by rewrite Hfound in Hsome. }
    cbv zeta.
    destruct (delete_one (announcements_collection (between db)) oid) as [count coll] eqn:Hdel.
    simpl. destruct (N.eqb_spec count 0) as [-> | Hcount]; simpl.
    - split; [intros _|done]. split; [by apply not_eq_None_Some|].
      exists oid. split; [done|]. split; [|by rewrite Hdel].
      unfold find_one. apply not_eq_None_Some in Hfound as [body ->]. by eexists.
    - split; [done|]. intros (_ & oid' & [= <-] & _ & Hzero).
      rewrite Hdel in Hzero. done. }
  split; [exact Hiff|].
  intros db announcement_id teacher_username H500.
  apply Hiff in H500 as (_ & oid & _ & [doc Hfound] & Hzero).
  apply delete_one_count_zero in Hzero.
  unfold find_one in Hfound. rewrite Hzero in Hfound. done.
Qed.

Lemma delete_internal_error_iff_lost_race_witness :
  status (delete_announcement_interleaved racing_delete sample_db sample_id "t1") = 500
  ∧ status (delete_announcement sample_db sample_id "t1") = 200.
Proof.
  destruct delete_internal_error_iff_lost_race as [Hiff Halone].
  split.
  - apply Hiff. split; [by eexists|]. exists 7.
    split; [reflexivity|]. split; [by eexists | reflexivity].
  - pose proof (Halone sample_db sample_id "t1") as Hnot.
    destruct (delete_announcement sample_db sample_id "t1") as [[r db']|e] eqn:E;
      [reflexivity|].
    by vm_compute in E.
Defined.

(** ** Authentication comes first *)

(** C7: a Create, Update or Delete request whose [teacher_username] has no
    teacher record is answered 401, whatever its message, dates or id are:
    the other arguments are not constrained at all. *)
Theorem unknown_teacher_is_unauthorized
    db now announcement_id message expiration_date teacher_username start_date is_active :
  teachers_collection db !! teacher_username = None ->
  create_announcement db now message expiration_date teacher_username start_date
    = Raise HTTP_401
  ∧ update_announcement db announcement_id message expiration_date teacher_username
      start_date is_active = Raise HTTP_401
  ∧ delete_announcement db announcement_id teacher_username = Raise HTTP_401
  ∧ status_code HTTP_401 = 401.
Proof.
  intros Hnone. apply teacher_unknown in Hnone.
  unfold create_announcement, update_announcement, delete_announcement,
    delete_announcement_interleaved.
  by rewrite Hnone.
Qed.

Lemma unknown_teacher_is_unauthorized_witness :
  teachers_collection sample_db !! "ghost" = None
  ∧ status (create_announcement sample_db sample_now "" "2024/01/01" "ghost" (Some "soon")) = 401
  ∧ status (update_announcement sample_db "not-an-id" "  " "" "ghost" None true) = 401
  ∧ status (delete_announcement sample_db "not-an-id" "ghost") = 401.
Proof.
  assert (H : teachers_collection sample_db !! "ghost" = None) by reflexivity.
  split; [exact H|].
  destruct (unknown_teacher_is_unauthorized sample_db sample_now "not-an-id" ""
              "2024/01/01" "ghost" (Some "soon") true H) as (Hc & _ & _ & _).
  destruct (unknown_teacher_is_unauthorized sample_db sample_now "not-an-id" "  "
              "" "ghost" None true H) as (_ & Hu & Hd & _).
  rewrite Hc, Hu, Hd. repeat split; reflexivity.
Defined.

(** ** Update *)

(** C8: a successful Update leaves the document under its id, gives it the
    four fields of the request, keeps every other field of it (so
    [created_by] and [created_at]) and every other document, and touches
    nothing else in the store. *)
Theorem update_overwrites_four_fields_only
    db announcement_id message expiration_date teacher_username start_date is_active r db' :
  update_announcement db announcement_id message expiration_date teacher_username
    start_date is_active = Ok (r, db') ->
  ∃ oid old new,
    ObjectId announcement_id = Some oid
    ∧ announcements_collection db !! oid = Some old
    ∧ announcements_collection db' !! oid = Some new
    ∧ new !! "message" = Some (VStr (strip message))
    ∧ new !! "start_date" = Some (of_optional start_date)
    ∧ new !! "expiration_date" = Some (VStr expiration_date)
    ∧ new !! "is_active" = Some (VBool is_active)
    ∧ (∀ f, f ∉ ["message"; "start_date"; "expiration_date"; "is_active"] ->
            new !! f = old !! f)
    ∧ new !! "created_by" = old !! "created_by"
    ∧ new !! "created_at" = old !! "created_at"
    ∧ (with_id oid <$> Some new) = find_one (announcements_collection db') oid
    ∧ (∀ k, k ≠ oid ->
            announcements_collection db' !! k = announcements_collection db !! k)
    ∧ dom (announcements_collection db') = dom (announcements_collection db)
    ∧ teachers_collection db' = teachers_collection db
    ∧ next_oid db' = next_oid db.
Proof.
  intros Hok. apply update_announcement_ok in Hok as (oid & old & Hid & Hold & _ & _ & _ & ->).
  eexists oid, old, _. simpl.
  split; [done|]. split; [done|]. split; [apply lookup_insert_eq|].
  assert (Hframe : ∀ f, f ∉ ["message"; "start_date"; "expiration_date"; "is_active"] ->
     ((({[ "message" := VStr (strip message);
           "start_date" := of_optional start_date;
           "expiration_date" := VStr expiration_date;
           "is_active" := VBool is_active ]} : Document) ∪ old) !! f = old !! f)).
  { intros f Hf. apply lookup_union_r.
    rewrite !not_elem_of_cons in Hf. destruct Hf as (? & ? & ? & ? & _).
    rewrite !lookup_insert_ne by done. by apply lookup_singleton_ne. }
  repeat split.
  - by apply lookup_union_Some_l.
  - by apply lookup_union_Some_l.
  - by apply lookup_union_Some_l.
  - by apply lookup_union_Some_l.
  - exact Hframe.
  - apply Hframe. compute_done.
  - apply Hframe. compute_done.
  - unfold find_one. by rewrite lookup_insert_eq.
  - intros k Hk. by apply lookup_insert_ne.
  - apply dom_insert_lookup_L. by eexists.
Qed.

Lemma update_overwrites_four_fields_only_witness :
  ∃ new,
    announcements_collection (store_after sample_db sample_update) !! 7 = Some new
    ∧ new !! "message" = Some (VStr "Moved to Monday")
    ∧ new !! "created_by" = Some (VStr "t1")
    ∧ new !! "created_at" = Some (VStr "2026-01-01T08:00:00Z").
Proof.
  assert (Hok : sample_update
                = Ok ("Announcement updated successfully", store_after sample_db sample_update))
    by (vm_compute; reflexivity).
  destruct (update_overwrites_four_fields_only _ _ _ _ _ _ _ _ _ Hok)
    as (oid & old & new & Hid & Hold & Hnew & Hmsg & _ & _ & _ & _ & Hby & Hat & _).
  assert (oid = 7) as -> by (vm_compute in Hid; congruence).
  assert (Hsample : announcements_collection sample_db !! 7 = Some sample_announcement)
    by reflexivity.
  rewrite Hsample in Hold. injection Hold as <-.
  exists new. split; [exact Hnew|]. split; [exact Hmsg|].
  split; [rewrite Hby | rewrite Hat]; reflexivity.
Defined.

(** ** Invariant of the stored announcements *)

(** C9: in every store the handlers can produce from an empty collection,
    each announcement has a message that is not empty and is its own
    stripped form, a [created_by] and an [is_active] flag. *)
Theorem stored_announcements_are_well_formed db0 reqs oid doc :
  announcements_collection db0 = ∅ ->
  announcements_collection (run db0 reqs) !! oid = Some doc ->
  well_formed_announcement doc.
Proof.
  intros Hempty. apply run_well_formed.
  intros k d. rewrite Hempty. by rewrite lookup_empty.
Qed.

Lemma stored_announcements_are_well_formed_witness :
  announcements_collection (run empty_db sample_history) !! 0
    = Some sample_final_announcement
  ∧ well_formed_announcement sample_final_announcement.
Proof.
  assert (E : announcements_collection (run empty_db sample_history) !! 0
              = Some sample_final_announcement) by (vm_compute; reflexivity).
  split; [exact E|].
  exact (stored_announcements_are_well_formed empty_db sample_history 0
           sample_final_announcement eq_refl E).
Defined.

(** ** Update without a start date *)

(** C10: after a successful Update whose [start_date] parameter is left
    out, the stored document's [start_date] is null, whatever it was. *)
Theorem update_without_start_date_stores_null
    db announcement_id message expiration_date teacher_username is_active r db' :
  update_announcement db announcement_id message expiration_date teacher_username
    None is_active = Ok (r, db') ->
  ∃ oid old new,
    ObjectId announcement_id = Some oid
    ∧ announcements_collection db !! oid = Some old
    ∧ announcements_collection db' !! oid = Some new
    ∧ new !! "start_date" = Some VNull.
Proof.
  intros Hok. apply update_announcement_ok in Hok as (oid & old & Hid & Hold & _ & _ & _ & ->).
  eexists oid, old, _. simpl.
  split; [done|]. split; [done|]. split; [apply lookup_insert_eq|].
  by apply lookup_union_Some_l.
Qed.

Lemma update_without_start_date_stores_null_witness :
  sample_announcement !! "start_date" = Some (VStr "2026-01-01")
  ∧ ∃ new,
      announcements_collection (store_after sample_db sample_update_no_start) !! 7 = Some new
      ∧ new !! "start_date" = Some VNull.
Proof.
  split; [reflexivity|].
  assert (Hok : sample_update_no_start
                = Ok ("Announcement updated successfully",
                      store_after sample_db sample_update_no_start))
    by (vm_compute; reflexivity).
  destruct (update_without_start_date_stores_null _ _ _ _ _ _ _ _ Hok)
    as (oid & old & new & Hid & _ & Hnew & Hstart).
  assert (oid = 7) as -> by (vm_compute in Hid; congruence).
  exists new. split; [exact Hnew | exact Hstart].
Defined.

(** * Worked examples *)

Example strptime_plain : strptime_Ymd "2099-01-01" = Some (2099, 1, 1).
Proof. reflexivity. Qed.

Example strptime_slashes : strptime_Ymd "2024/01/01" = None.
Proof. reflexivity. Qed.

Example strptime_feb30 : strptime_Ymd "2024-02-30" = None.
Proof. reflexivity. Qed.

Example strptime_leap : strptime_Ymd "2024-02-29" = Some (2024, 2, 29).
Proof. reflexivity. Qed.

Example strptime_no_leading_zero : strptime_Ymd "2024-1-5" = Some (2024, 1, 5).
Proof. reflexivity. Qed.

Example strptime_trailing : strptime_Ymd "2024-01-011" = None.
Proof. reflexivity. Qed.

Example strptime_year_zero : strptime_Ymd "0000-01-01" = None.
Proof. reflexivity. Qed.

Example strip_example : strip "  Exam Friday  " = "Exam Friday".
Proof. reflexivity. Qed.

Example isoformat_example :
  isoformat (mk_datetime 2026 3 9 8 5 0 0) = "2026-03-09T08:05:00"
  ∧ isoformat (mk_datetime 2026 3 9 8 5 0 250) = "2026-03-09T08:05:00.000250".
Proof. split; reflexivity. Qed.

Example ObjectId_examples :
  ObjectId "0000000000000000000000fF" = Some 255
  ∧ ObjectId "00000000000000000000000g" = None
  ∧ ObjectId "ff" = None
  ∧ str_oid 255 = "0000000000000000000000ff".
Proof. repeat split; reflexivity. Qed.

(** Blanks between the pairs of an id are skipped, and the id, of eight
    bytes, names no document: the answer is 404.  A blank inside a pair is
    refused: the answer is 400. *)
Example ObjectId_white_space :
  ObjectId "00 00 00 00 00 00 00 07 " = Some (oid_bound * 9 + 7)
  ∧ status (update_announcement sample_db "00 00 00 00 00 00 00 07 " "Exam Friday"
              "2024/01/01" "t1" None true) = 404
  ∧ status (delete_announcement sample_db "00 00 00 00 00 00 00 07 " "t1") = 404
  ∧ ObjectId "0 0000000000000000000007" = None
  ∧ status (delete_announcement sample_db "0 0000000000000000000007" "t1") = 400.
Proof. repeat split; reflexivity. Qed.

(** Before year 1000 [strftime] and [isoformat] write the year differently. *)
Example strftime_year_999 :
  strftime_Ymd (mk_datetime 999 12 31 0 0 0 0) = "999-12-31"
  ∧ isoformat (mk_datetime 999 12 31 0 0 0 0) = "0999-12-31T00:00:00"
  ∧ strftime_Ymd sample_now = "2026-03-09".
Proof. repeat split; reflexivity. Qed.

(** The first two examples of the specification. *)
Example create_exam_friday :
  ∃ r db',
    create_announcement empty_db sample_now "Exam Friday" "2099-01-01" "t1" None
      = Ok (r, db')
    ∧ created_announcement r !! "message" = Some (VStr "Exam Friday")
    ∧ created_announcement r !! "is_active" = Some (VBool true)
    ∧ created_announcement r !! "_id" = Some (VStr "000000000000000000000000")
    ∧ created_announcement r !! "created_at" = Some (VStr "2026-03-09T12:30:15Z").
Proof.
  eexists _, _. split.
  - apply create_announcement_succeeds; [by eexists | done | reflexivity | reflexivity].
  - repeat split; reflexivity.
Qed.

Example create_ghost :
  status (create_announcement empty_db sample_now "Exam Friday" "2099-01-01" "ghost" None)
  = 401.
Proof. reflexivity. Qed.

(** The ids of the announcements List returns from [list_db], in order. *)
Example list_db_active :
  (fun doc => doc !! "_id") <$> get_announcements list_db sample_now true
  = [ Some (VStr "000000000000000000000005");
      Some (VStr "000000000000000000000004");
      Some (VStr "000000000000000000000001") ].
Proof. vm_compute. reflexivity. Qed.

Example list_db_all :
  (fun doc => doc !! "_id") <$> get_announcements list_db sample_now false
  = [ Some (VStr "000000000000000000000005");
      Some (VStr "000000000000000000000004");
      Some (VStr "000000000000000000000003");
      Some (VStr "000000000000000000000002");
      Some (VStr "000000000000000000000001") ].
Proof. vm_compute. reflexivity. Qed.

(** * Further properties of the handlers *)

(** ** The checks, one by one *)

Lemma message_blank message :
  strip message = "" -> negb (truthy message) || negb (truthy (strip message)) = true.
Proof. intros ->. apply orb_true_r. Qed.

Lemma message_not_blank message :
  strip message ≠ "" -> negb (truthy message) || negb (truthy (strip message)) = false.
Proof. intros Hmsg. by destruct (strip_truthy _ Hmsg) as [-> ->]. Qed.

Lemma message_check_spec message :
  negb (truthy message) || negb (truthy (strip message)) = bool_decide (strip message = "").
Proof.
  case_bool_decide as H; [by apply message_blank | by apply message_not_blank].
Qed.

Lemma date_format_ok_iff expiration_date start_date :
  date_format_ok expiration_date start_date = true
  <-> is_Some (strptime_Ymd expiration_date)
      ∧ ∀ s, start_date = Some s -> s ≠ "" -> is_Some (strptime_Ymd s).
Proof.
  split; [apply date_format_ok_true|]. intros [[d Hexp] Hstart].
  unfold date_format_ok. rewrite Hexp. destruct start_date as [s|]; [|done].
  destruct s as [|c s]; [done|]. simpl. apply bool_decide_eq_true_2. by apply Hstart.
Qed.

Lemma expiration_truthy expiration_date :
  is_Some (strptime_Ymd expiration_date) -> truthy expiration_date = true.
Proof. destruct expiration_date; [by intros [? ?]|done]. Qed.

(** X1: a message that is empty or all blanks, from a known teacher, is
    answered 400 "Message is required" by Create, and by Update of an
    existing announcement, before the dates are looked at. *)
Theorem blank_message_is_rejected
    db now announcement_id oid message expiration_date teacher_username start_date is_active :
  is_Some (teachers_collection db !! teacher_username) ->
  strip message = "" ->
  create_announcement db now message expiration_date teacher_username start_date
    = Raise HTTP_400_message
  ∧ (ObjectId announcement_id = Some oid ->
     is_Some (announcements_collection db !! oid) ->
     update_announcement db announcement_id message expiration_date teacher_username
       start_date is_active = Raise HTTP_400_message)
  ∧ status_code HTTP_400_message = 400.
Proof.
  intros Hteacher Hblank. split; [|split; [|done]].
  - unfold create_announcement.
    by rewrite (teacher_known _ _ Hteacher), (message_blank _ Hblank).
  - intros Hid Hfound. unfold update_announcement.
    rewrite (teacher_known _ _ Hteacher), Hid, (announcement_found _ _ Hfound).
    by rewrite (message_blank _ Hblank).
Qed.

Lemma blank_message_is_rejected_witness :
  create_announcement sample_db sample_now "   " "not a date" "t1" (Some "nor this")
    = Raise HTTP_400_message
  ∧ update_announcement sample_db sample_id "" "not a date" "t1" None true
    = Raise HTTP_400_message.
Proof.
  assert (Ht : is_Some (teachers_collection sample_db !! "t1")) by (eexists; reflexivity).
  split.
  - apply (blank_message_is_rejected sample_db sample_now sample_id 7 "   " "not a date"
             "t1" (Some "nor this") true Ht eq_refl).
  - apply (blank_message_is_rejected sample_db sample_now sample_id 7 "" "not a date"
             "t1" None true Ht eq_refl); [reflexivity | eexists; reflexivity].
Defined.

(** X2: an empty [expiration_date], with a known teacher and a message that
    is not blank, is answered 400 "Expiration date is required" by Create,
    and by Update of an existing announcement, whatever [start_date] is; the
    date parser is not reached. *)
Theorem empty_expiration_is_rejected
    db now announcement_id oid message teacher_username start_date is_active :
  is_Some (teachers_collection db !! teacher_username) ->
  strip message ≠ "" ->
  create_announcement db now message "" teacher_username start_date
    = Raise HTTP_400_expiration
  ∧ (ObjectId announcement_id = Some oid ->
     is_Some (announcements_collection db !! oid) ->
     update_announcement db announcement_id message "" teacher_username
       start_date is_active = Raise HTTP_400_expiration)
  ∧ status_code HTTP_400_expiration = 400.
Proof.
  intros Hteacher Hmsg. split; [|split; [|done]].
  - unfold create_announcement.
    by rewrite (teacher_known _ _ Hteacher), (message_not_blank _ Hmsg).
  - intros Hid Hfound. unfold update_announcement.
    rewrite (teacher_known _ _ Hteacher), Hid, (announcement_found _ _ Hfound).
    by rewrite (message_not_blank _ Hmsg).
Qed.

Lemma empty_expiration_is_rejected_witness :
  create_announcement sample_db sample_now "Exam Friday" "" "t1" (Some "2024/01/01")
    = Raise HTTP_400_expiration
  ∧ update_announcement sample_db sample_id "Exam Friday" "" "t1" None true
    = Raise HTTP_400_expiration.
Proof.
  assert (Ht : is_Some (teachers_collection sample_db !! "t1")) by (eexists; reflexivity).
  assert (Hm : strip "Exam Friday" ≠ "") by done.
  split.
  - apply (empty_expiration_is_rejected sample_db sample_now sample_id 7 "Exam Friday"
             "t1" (Some "2024/01/01") true Ht Hm).
  - apply (empty_expiration_is_rejected sample_db sample_now sample_id 7 "Exam Friday"
             "t1" None true Ht Hm); [reflexivity | eexists; reflexivity].
Defined.

(** X3: an id that [ObjectId] refuses (a text that has not twenty-four
    characters, or that [bytes.fromhex] does not read), from a known
    teacher, is answered 400 "Invalid announcement ID" by Update and by
    Delete, whatever else the request carries. *)
Theorem malformed_id_is_bad_request
    db announcement_id message expiration_date teacher_username start_date is_active :
  is_Some (teachers_collection db !! teacher_username) ->
  ObjectId announcement_id = None ->
  update_announcement db announcement_id message expiration_date teacher_username
    start_date is_active = Raise HTTP_400_id
  ∧ delete_announcement db announcement_id teacher_username = Raise HTTP_400_id
  ∧ status_code HTTP_400_id = 400.
Proof.
  intros Hteacher Hid.
  unfold update_announcement, delete_announcement, delete_announcement_interleaved.
  by rewrite (teacher_known _ _ Hteacher), Hid.
Qed.

Lemma malformed_id_is_bad_request_witness :
  status (update_announcement sample_db "7" "" "" "t1" None true) = 400
  ∧ status (delete_announcement sample_db "00000000000000000000000g" "t1") = 400.
Proof.
  assert (Ht : is_Some (teachers_collection sample_db !! "t1")) by (eexists; reflexivity).
  destruct (malformed_id_is_bad_request sample_db "7" "" "" "t1" None true Ht eq_refl)
    as (-> & _ & _).
  destruct (malformed_id_is_bad_request sample_db "00000000000000000000000g" "" "" "t1"
              None true Ht eq_refl) as (_ & -> & _).
  split; reflexivity.
Defined.

(** ** When a request succeeds *)

Lemma next_oid_free db : ids_issued db -> announcements_collection db !! next_oid db = None.
Proof.
  intros Hdb. destruct (announcements_collection db !! next_oid db) eqn:E; [|done].
  assert (next_oid db < next_oid db) by (apply Hdb; by eexists). lia.
Qed.

(** X4: in a store whose ids came from the generator, Create is answered
    200 exactly when the teacher is known, the message is not blank,
    [strptime] accepts [expiration_date] and accepts [start_date] unless it
    is missing or empty; otherwise it is answered 401 or 400, never 404 or
    500. *)
Theorem create_succeeds_iff db now message expiration_date teacher_username start_date :
  ids_issued db ->
  (status (create_announcement db now message expiration_date teacher_username start_date)
     = 200
   <-> is_Some (teachers_collection db !! teacher_username)
       ∧ strip message ≠ ""
       ∧ is_Some (strptime_Ymd expiration_date)
       ∧ ∀ s, start_date = Some s -> s ≠ "" -> is_Some (strptime_Ymd s))
  ∧ (status (create_announcement db now message expiration_date teacher_username start_date)
       ∈ [200; 400; 401]).
Proof.
  intros Hdb. pose proof (next_oid_free _ Hdb) as Hfree.
  unfold create_announcement, insert_one.
  rewrite falsy_find_one_teacher, message_check_spec, Hfree.
  case_bool_decide as Hteacher.
  { split; [|set_solver]. split; [done|]. intros ([? Ht] & _). congruence. }
  apply not_eq_None_Some in Hteacher.
  case_bool_decide as Hmsg.
  { split; [|set_solver]. split; [done|]. by intros (_ & ? & _). }
  destruct (truthy expiration_date) eqn:Hexp; simpl.
  2: { split; [|set_solver]. split; [done|]. intros (_ & _ & He%expiration_truthy & _).
       congruence. }
  destruct (date_format_ok expiration_date start_date) eqn:Hdates; simpl.
  - split; [|set_solver]. split; [intros _|done].
    apply date_format_ok_iff in Hdates as [? ?]. done.
  - split; [|set_solver]. split; [done|]. intros (_ & _ & He & Hs).
    assert (date_format_ok expiration_date start_date = true)
      by (by apply date_format_ok_iff). congruence.
Qed.

Lemma create_succeeds_iff_witness :
  status (create_announcement sample_db sample_now " Fair " "2026-05-01" "t1" (Some "")) = 200
  ∧ status (create_announcement sample_db sample_now " Fair " "2026-05-01" "t1"
              (Some "tomorrow")) ≠ 200.
Proof.
  assert (Hdb : ids_issued sample_db).
  { intros k [doc Hk]. destruct (decide (k = 7)) as [-> | Hne]; [done|].
    unfold sample_db in Hk. simpl in Hk. by rewrite lookup_singleton_ne in Hk. }
  split.
  - apply (create_succeeds_iff sample_db sample_now " Fair " "2026-05-01" "t1" (Some "") Hdb).
    split; [by eexists|]. split; [done|]. split; [eexists; reflexivity|].
    by intros s [= <-].
  - intros H.
    apply (create_succeeds_iff sample_db sample_now " Fair " "2026-05-01" "t1"
             (Some "tomorrow") Hdb) in H as (_ & _ & _ & Hs).
    destruct (Hs "tomorrow" eq_refl ltac:(done)) as [d Hd]. by vm_compute in Hd.
Defined.

(** X5: Update is answered 200 exactly when the teacher is known, the id
    is well formed and names a stored announcement, the message is not
    blank and the dates pass as for Create; otherwise it is answered 401,
    400 or 404, never 500. *)
Theorem update_succeeds_iff
    db announcement_id message expiration_date teacher_username start_date is_active :
  (status (update_announcement db announcement_id message expiration_date
             teacher_username start_date is_active) = 200
   <-> is_Some (teachers_collection db !! teacher_username)
       ∧ (∃ oid, ObjectId announcement_id = Some oid
                 ∧ is_Some (announcements_collection db !! oid))
       ∧ strip message ≠ ""
       ∧ is_Some (strptime_Ymd expiration_date)
       ∧ ∀ s, start_date = Some s -> s ≠ "" -> is_Some (strptime_Ymd s))
  ∧ (status (update_announcement db announcement_id message expiration_date
               teacher_username start_date is_active) ∈ [200; 400; 401; 404]).
Proof.
  unfold update_announcement. rewrite falsy_find_one_teacher.
  case_bool_decide as Hteacher.
  { split; [|set_solver]. split; [done|]. intros ([? Ht] & _). congruence. }
  apply not_eq_None_Some in Hteacher.
  destruct (ObjectId announcement_id) as [oid|] eqn:Hid.
  2: { split; [|set_solver]. split; [done|]. by intros (_ & (? & ? & _) & _). }
  rewrite falsy_find_one, message_check_spec.
  case_bool_decide as Hfound.
  { split; [|set_solver]. split; [done|]. intros (_ & (oid' & [= <-] & [? Hf]) & _).
    congruence. }
  apply not_eq_None_Some in Hfound.
  case_bool_decide as Hmsg.
  { split; [|set_solver]. split; [done|]. by intros (_ & _ & ? & _). }
  destruct (truthy expiration_date) eqn:Hexp; simpl.
  2: { split; [|set_solver]. split; [done|].
       intros (_ & _ & _ & He%expiration_truthy & _). congruence. }
  destruct (date_format_ok expiration_date start_date) eqn:Hdates; simpl.
  - split; [|set_solver]. split; [intros _|done].
    apply date_format_ok_iff in Hdates as [? ?]. split; [done|]. split; [by exists oid|done].
  - split; [|set_solver]. split; [done|]. intros (_ & _ & _ & He & Hs).
    assert (date_format_ok expiration_date start_date = true)
      by (by apply date_format_ok_iff). congruence.
Qed.

(** X6: Delete is answered 200 exactly when the teacher is known,
    [ObjectId] accepts the id and it names a stored announcement; 404
    exactly when the teacher is known, [ObjectId] accepts the id and it
    names none; 400 exactly when the teacher is known and [ObjectId] refuses
    the id; 401 exactly when the teacher is unknown.  An id of hexadecimal
    pairs separated by blanks is accepted and names none. *)
Theorem delete_outcomes db announcement_id teacher_username :
  (status (delete_announcement db announcement_id teacher_username) = 200
   <-> is_Some (teachers_collection db !! teacher_username)
       ∧ ∃ oid, ObjectId announcement_id = Some oid
                ∧ is_Some (announcements_collection db !! oid))
  ∧ (status (delete_announcement db announcement_id teacher_username) = 404
     <-> is_Some (teachers_collection db !! teacher_username)
         ∧ ∃ oid, ObjectId announcement_id = Some oid
                  ∧ announcements_collection db !! oid = None)
  ∧ (status (delete_announcement db announcement_id teacher_username) = 400
     <-> is_Some (teachers_collection db !! teacher_username)
         ∧ ObjectId announcement_id = None)
  ∧ (status (delete_announcement db announcement_id teacher_username) = 401
     <-> teachers_collection db !! teacher_username = None).
Proof.
  unfold delete_announcement, delete_announcement_interleaved.
  rewrite falsy_find_one_teacher.
  case_bool_decide as Hteacher.
  { repeat split; try done; try (by intros [[? Ht] _]; congruence). }
  pose proof Hteacher as Hknown. apply not_eq_None_Some in Hknown.
  destruct (ObjectId announcement_id) as [oid|] eqn:Hid.
  2: { repeat split; try done; by intros (_ & ? & ? & _). }
  rewrite falsy_find_one. case_bool_decide as Hfound.
  { repeat split; try done; try (by intros [_ ?]).
    - intros (_ & oid' & [= <-] & [? Hf]). congruence.
    - by exists oid. }
  apply not_eq_None_Some in Hfound. rewrite (delete_one_present _ _ Hfound). simpl.
  repeat split; try done; try (by intros [_ ?]).
  - by exists oid.
  - intros (_ & oid' & [= <-] & Hnone). destruct Hfound as [? Hf]. congruence.
Qed.

Lemma update_succeeds_iff_witness :
  status (update_announcement sample_db sample_id "Exam Friday" "2099-01-01" "t1"
            (Some "") true) = 200
  ∧ status (update_announcement sample_db sample_id "Exam Friday" "2099-13-01" "t1"
              None true) ≠ 200.
Proof.
  split.
  - apply (update_succeeds_iff sample_db sample_id "Exam Friday" "2099-01-01" "t1"
             (Some "") true).
    split; [by eexists|]. split; [exists 7; split; [reflexivity | by eexists]|].
    split; [done|]. split; [eexists; reflexivity|]. by intros s [= <-].
  - intros H.
    apply (update_succeeds_iff sample_db sample_id "Exam Friday" "2099-13-01" "t1"
             None true) in H as (_ & _ & _ & [d Hd] & _).
    by vm_compute in Hd.
Defined.

Lemma delete_outcomes_witness :
  status (delete_announcement sample_db sample_id "t1") = 200
  ∧ status (delete_announcement sample_db absent_id "t1") = 404
  ∧ status (delete_announcement sample_db "00 00 00 00 00 00 00 07 " "t1") = 404
  ∧ status (delete_announcement sample_db "7" "t1") = 400
  ∧ status (delete_announcement sample_db sample_id "ghost") = 401.
Proof.
  assert (Ht : is_Some (teachers_collection sample_db !! "t1")) by (eexists; reflexivity).
  split; [|split; [|split; [|split]]].
  - apply (delete_outcomes sample_db sample_id "t1").
    split; [exact Ht|]. exists 7. split; [reflexivity | by eexists].
  - apply (delete_outcomes sample_db absent_id "t1").
    split; [exact Ht|]. exists 42. split; reflexivity.
  - apply (delete_outcomes sample_db "00 00 00 00 00 00 00 07 " "t1").
    split; [exact Ht|]. exists (oid_bound * 9 + 7). split; reflexivity.
  - apply (delete_outcomes sample_db "7" "t1"). split; [exact Ht | reflexivity].
  - apply (delete_outcomes sample_db sample_id "ghost"). reflexivity.
Defined.

(** ** What no request touches *)

(** X7: no sequence of requests changes the teachers collection. *)
Theorem teachers_are_never_written db reqs :
  teachers_collection (run db reqs) = teachers_collection db.
Proof.
  revert db. induction reqs as [|req reqs IH]; intros db; simpl; [done|].
  rewrite IH.
  destruct (next_store_cases db req)
    as [-> | [(? & ? & ? & ? & ? & _ & _ & _ & ->)
           | [(? & ? & ? & ? & _ & _ & _ & _ & _ & _ & ->) | (? & _ & ->)]]]; done.
Qed.

(** ** The id Create returns *)

(** X8: the id in the answer of a successful Create is one Delete accepts:
    the same teacher deleting it at once succeeds, and the announcements
    are again what they were before the Create; only the id is spent. *)
Theorem create_then_delete
    db now message expiration_date teacher_username start_date r db1 :
  next_oid db < oid_bound ->
  create_announcement db now message expiration_date teacher_username start_date
    = Ok (r, db1) ->
  ∃ id db2,
    created_announcement r !! "_id" = Some (VStr id)
    ∧ delete_announcement db1 id teacher_username
      = Ok ("Announcement deleted successfully", db2)
    ∧ announcements_collection db2 = announcements_collection db
    ∧ teachers_collection db2 = teachers_collection db
    ∧ next_oid db2 = next_oid db + 1.
Proof.
  intros Hbound Hc.
  apply create_announcement_ok in Hc as (Hteacher & _ & _ & Hfree & -> & ->).
  eexists (str_oid (next_oid db)), _. split; [apply lookup_insert_eq|].
  unfold delete_announcement, delete_announcement_interleaved.
  cbn [teachers_collection announcements_collection].
  rewrite (teacher_known _ _ Hteacher), (ObjectId_str_oid _ Hbound).
  rewrite announcement_found by (rewrite lookup_insert_eq; by eexists).
  rewrite delete_one_present by (rewrite lookup_insert_eq; by eexists).
  cbn [fst snd N.eqb Pos.eqb]. split; [reflexivity|].
  cbn [set_announcements teachers_collection announcements_collection next_oid].
  split; [by apply delete_insert_id | done].
Qed.

Lemma create_then_delete_witness :
  ∃ id db2,
    delete_announcement (store_after sample_db sample_create) id "t1"
      = Ok ("Announcement deleted successfully", db2)
    ∧ announcements_collection db2 = announcements_collection sample_db.
Proof.
  assert (Hb : next_oid sample_db < oid_bound) by reflexivity.
  assert (Hc : sample_create = Ok ({| created_message := "Announcement created successfully";
                  created_announcement :=
                    <["_id" := VStr (str_oid 8)]>
                      (new_announcement sample_now " Book fair " "2026-05-01" "t1"
                         (Some "2026-04-20")) |},
                store_after sample_db sample_create)) by (vm_compute; reflexivity).
  destruct (create_then_delete sample_db sample_now " Book fair " "2026-05-01" "t1"
              (Some "2026-04-20") _ _ Hb Hc) as (id & db2 & _ & Hd & Hsame & _).
  by exists id, db2.
Defined.

(** X9: the id in the answer of a successful Create is one Update accepts:
    an Update of it with a message that is not blank and dates that pass
    succeeds, leaves the document with the new message and flag, and keeps
    the author and the creation time the Create gave it. *)
Theorem create_then_update
    db now message expiration_date teacher_username start_date r db1
    message' expiration_date' editor start_date' is_active' :
  next_oid db < oid_bound ->
  create_announcement db now message expiration_date teacher_username start_date
    = Ok (r, db1) ->
  is_Some (teachers_collection db !! editor) ->
  strip message' ≠ "" ->
  date_format_ok expiration_date' start_date' = true ->
  ∃ id db2 doc,
    created_announcement r !! "_id" = Some (VStr id)
    ∧ update_announcement db1 id message' expiration_date' editor start_date' is_active'
      = Ok ("Announcement updated successfully", db2)
    ∧ announcements_collection db2 !! next_oid db = Some doc
    ∧ doc !! "message" = Some (VStr (strip message'))
    ∧ doc !! "expiration_date" = Some (VStr expiration_date')
    ∧ doc !! "start_date" = Some (of_optional start_date')
    ∧ doc !! "is_active" = Some (VBool is_active')
    ∧ doc !! "created_by" = Some (VStr teacher_username)
    ∧ doc !! "created_at" = Some (VStr (isoformat now +:+ "Z")).
Proof.
  intros Hbound Hc Heditor Hmsg Hdates.
  apply create_announcement_ok in Hc as (_ & _ & _ & Hfree & -> & ->).
  eexists (str_oid (next_oid db)), _, _. split; [apply lookup_insert_eq|].
  unfold update_announcement, update_one.
  cbn [teachers_collection announcements_collection].
  rewrite (teacher_known _ _ Heditor), (ObjectId_str_oid _ Hbound).
  rewrite announcement_found by (rewrite lookup_insert_eq; by eexists).
  rewrite (message_not_blank _ Hmsg), Hdates.
  rewrite expiration_truthy by (by apply date_format_ok_iff in Hdates as [? _]).
  rewrite lookup_insert_eq.
  cbn [negb snd set_announcements teachers_collection announcements_collection].
  split; [reflexivity|]. split; [apply lookup_insert_eq|].
  repeat split; try (by apply lookup_union_Some_l); by rewrite lookup_union_r.
Qed.

Lemma create_then_update_witness :
  ∃ id db2 doc,
    update_announcement (store_after sample_db sample_create) id "Book fair moved"
      "2026-06-01" "t1" None false = Ok ("Announcement updated successfully", db2)
    ∧ announcements_collection db2 !! 8 = Some doc
    ∧ doc !! "message" = Some (VStr "Book fair moved")
    ∧ doc !! "created_by" = Some (VStr "t1").
Proof.
  assert (Hb : next_oid sample_db < oid_bound) by reflexivity.
  assert (Hc : sample_create = Ok ({| created_message := "Announcement created successfully";
                  created_announcement :=
                    <["_id" := VStr (str_oid 8)]>
                      (new_announcement sample_now " Book fair " "2026-05-01" "t1"
                         (Some "2026-04-20")) |},
                store_after sample_db sample_create)) by (vm_compute; reflexivity).
  assert (Ht : is_Some (teachers_collection sample_db !! "t1")) by (eexists; reflexivity).
  assert (Hm : strip "Book fair moved" ≠ "") by done.
  assert (Hd : date_format_ok "2026-06-01" None = true) by reflexivity.
  destruct (create_then_update sample_db sample_now " Book fair " "2026-05-01" "t1"
              (Some "2026-04-20") _ _ "Book fair moved" "2026-06-01" "t1" None false
              Hb Hc Ht Hm Hd)
    as (id & db2 & doc & _ & Hu & Hdoc & Hmsg & _ & _ & _ & Hby & _).
  exists id, db2, doc. split; [exact Hu|]. split; [exact Hdoc|].
  split; [exact Hmsg | exact Hby].
Defined.

(** ** List, again *)

Lemma list_active_perm db now :
  get_announcements db now true
    ≡ₚ (fun kb => serialised kb.1 kb.2)
         <$> filter (fun kb => active_on (strftime_Ymd now) kb.2)
               (map_to_list (announcements_collection db)).
Proof. unfold get_announcements. rewrite find_active. apply serialise_sorted. Qed.

Lemma list_all_perm db now :
  get_announcements db now false
    ≡ₚ (fun kb => serialised kb.1 kb.2) <$> map_to_list (announcements_collection db).
Proof. unfold get_announcements. rewrite find_all. apply serialise_sorted. Qed.

Lemma elem_of_list_active db now out :
  out ∈ get_announcements db now true
  <-> ∃ oid body, announcements_collection db !! oid = Some body
                  ∧ active_on (strftime_Ymd now) body
                  ∧ out = serialised oid body.
Proof.
  rewrite list_active_perm, list_elem_of_fmap. split.
  - intros ([k body] & -> & [Hact Hin]%list_elem_of_filter).
    apply elem_of_map_to_list in Hin. by exists k, body.
  - intros (k & body & Hin & Hact & ->). exists (k, body). split; [done|].
    apply list_elem_of_filter. split; [done|]. by apply elem_of_map_to_list.
Qed.

Lemma elem_of_list_all db now out :
  out ∈ get_announcements db now false
  <-> ∃ oid body, announcements_collection db !! oid = Some body
                  ∧ out = serialised oid body.
Proof.
  rewrite list_all_perm, list_elem_of_fmap. split.
  - intros ([k body] & -> & Hin). apply elem_of_map_to_list in Hin. by exists k, body.
  - intros (k & body & Hin & ->). exists (k, body). split; [done|].
    by apply elem_of_map_to_list.
Qed.

(** Whether a record is active shows on the record itself. *)
Lemma active_on_serialised today oid body oid' body' :
  serialised oid body = serialised oid' body' ->
  active_on today body -> active_on today body'.
Proof.
  unfold serialised, active_on. intros E.
  assert (Hf : ∀ f, f ≠ "_id" -> body !! f = body' !! f).
  { intros f Hf. apply (f_equal (fun d : Document => d !! f)) in E.
    by rewrite !lookup_insert_ne in E. }
  by rewrite !Hf.
Qed.

(** X10: every record the active list has is in the full list; the full
    list has as many records as the collection has documents, the active
    list at most as many. *)
Theorem active_list_is_part_of_full_list db now :
  (∀ out, out ∈ get_announcements db now true -> out ∈ get_announcements db now false)
  ∧ length (get_announcements db now false) = size (announcements_collection db)
  ∧ (length (get_announcements db now true)
     <= length (get_announcements db now false))%nat.
Proof.
  split; [|split].
  - intros out (k & body & Hk & _ & ->)%elem_of_list_active.
    apply elem_of_list_all. by exists k, body.
  - by rewrite list_all_perm, length_fmap, length_map_to_list.
  - rewrite list_active_perm, list_all_perm, !length_fmap. apply length_filter.
Qed.

(** X11: the record a successful Create answers with is the record List
    then has for it: it is in the full list whenever it is read, and in the
    active list read at [now'] exactly when [expiration_date], as a text, is
    not below the current date. *)
Theorem created_record_is_listed
    db now message expiration_date teacher_username start_date r db1 now' :
  create_announcement db now message expiration_date teacher_username start_date
    = Ok (r, db1) ->
  created_announcement r ∈ get_announcements db1 now' false
  ∧ (created_announcement r ∈ get_announcements db1 now' true
     <-> String.le (strftime_Ymd now') expiration_date).
Proof.
  intros Hc. apply create_announcement_ok in Hc as (_ & _ & _ & _ & -> & ->).
  cbn [created_announcement].
  set (doc := new_announcement now message expiration_date teacher_username start_date).
  assert (Hact : active_on (strftime_Ymd now') doc
                 <-> String.le (strftime_Ymd now') expiration_date).
  { unfold active_on, doc, new_announcement. split; [by intros [_ ?] | by intros ?]. }
  split.
  - apply elem_of_list_all. exists (next_oid db), doc. split; [|done].
    apply lookup_insert_eq.
  - rewrite elem_of_list_active. split.
    + intros (k & body & _ & Hbody & E). apply Hact.
      by apply (active_on_serialised _ k body (next_oid db) doc).
    + intros Hle. exists (next_oid db), doc.
      split; [apply lookup_insert_eq|]. split; [by apply Hact | done].
Qed.

Lemma created_record_is_listed_witness :
  ∃ r db1,
    sample_create = Ok (r, db1)
    ∧ created_announcement r ∈ get_announcements db1 sample_now true
    ∧ created_announcement r ∉ get_announcements db1 (mk_datetime 2026 5 2 0 0 0 0) true.
Proof.
  assert (Hc : sample_create = Ok ({| created_message := "Announcement created successfully";
                  created_announcement :=
                    <["_id" := VStr (str_oid 8)]>
                      (new_announcement sample_now " Book fair " "2026-05-01" "t1"
                         (Some "2026-04-20")) |},
                store_after sample_db sample_create)) by (vm_compute; reflexivity).
  eexists _, _. split; [exact Hc|]. split.
  - apply (created_record_is_listed _ _ _ _ _ _ _ _ sample_now Hc). done.
  - intros Hin.
    apply (created_record_is_listed _ _ _ _ _ _ _ _ (mk_datetime 2026 5 2 0 0 0 0) Hc) in Hin.
    done.
Defined.

(** X12: what an announcement is after a successful Update: List has it in
    the full list, and in the active list read at [now] exactly when
    [is_active] was given true and [expiration_date], as a text, is not
    below the current date; an Update with [is_active] false takes it off
    the active list. *)
Theorem updated_record_is_listed
    db announcement_id message expiration_date teacher_username start_date is_active
    r db' now :
  update_announcement db announcement_id message expiration_date teacher_username
    start_date is_active = Ok (r, db') ->
  ∃ oid doc,
    ObjectId announcement_id = Some oid
    ∧ announcements_collection db' !! oid = Some doc
    ∧ serialised oid doc ∈ get_announcements db' now false
    ∧ (serialised oid doc ∈ get_announcements db' now true
       <-> is_active = true ∧ String.le (strftime_Ymd now) expiration_date).
Proof.
  intros Hu. apply update_announcement_ok in Hu as (oid & old & Hid & Hold & _ & _ & _ & ->).
  eexists oid, _. split; [done|]. cbn [set_announcements announcements_collection].
  split; [apply lookup_insert_eq|].
  set (doc := _ ∪ old).
  assert (Hflag : doc !! "is_active" = Some (VBool is_active))
    by (by apply lookup_union_Some_l).
  assert (Hexp : doc !! "expiration_date" = Some (VStr expiration_date))
    by (by apply lookup_union_Some_l).
  assert (Hact : active_on (strftime_Ymd now) doc
                 <-> is_active = true ∧ String.le (strftime_Ymd now) expiration_date).
  { unfold active_on. rewrite Hflag, Hexp. split.
    - by intros [[= ->] ?].
    - by intros [-> ?]. }
  split.
  - apply elem_of_list_all. exists oid, doc. split; [apply lookup_insert_eq | done].
  - rewrite elem_of_list_active. cbn [announcements_collection]. split.
    + intros (k & body & _ & Hbody & E). apply Hact.
      by apply (active_on_serialised _ k body oid doc).
    + intros Hconds. exists oid, doc.
      split; [apply lookup_insert_eq|]. split; [by apply Hact | done].
Qed.

Lemma updated_record_is_listed_witness :
  ∃ doc,
    announcements_collection (store_after sample_db sample_update) !! 7 = Some doc
    ∧ serialised 7 doc ∈ get_announcements (store_after sample_db sample_update) sample_now false
    ∧ serialised 7 doc ∉ get_announcements (store_after sample_db sample_update) sample_now true.
Proof.
  assert (Hok : sample_update
                = Ok ("Announcement updated successfully", store_after sample_db sample_update))
    by (vm_compute; reflexivity).
  destruct (updated_record_is_listed _ _ _ _ _ _ _ _ _ sample_now Hok)
    as (oid & doc & Hid & Hdoc & Hall & Hactive).
  assert (oid = 7) as -> by (vm_compute in Hid; congruence).
  exists doc. split; [exact Hdoc|]. split; [exact Hall|].
  intros Hin. apply Hactive in Hin as [? _]. done.
Defined.

Lemma active_list_is_part_of_full_list_witness :
  serialised 5 (listed "2026-03-05T08:00:00Z" "2026-03-09" true)
    ∈ get_announcements list_db sample_now false
  ∧ length (get_announcements list_db sample_now false) = 5%nat.
Proof.
  destruct (active_list_is_part_of_full_list list_db sample_now) as (Hpart & Hlen & _).
  split; [|by rewrite Hlen].
  apply Hpart, elem_of_list_active. eexists 5, _.
  split; [reflexivity|]. split; [|reflexivity]. split; [reflexivity | compute_done].
Defined.

(** X13: Delete takes one announcement off the lists and leaves the rest:
    after a successful Delete the full list and the active list have
    exactly the records they had for the other announcements. *)
Theorem delete_removes_from_lists db announcement_id teacher_username r db' now :
  delete_announcement db announcement_id teacher_username = Ok (r, db') ->
  ∃ oid,
    ObjectId announcement_id = Some oid
    ∧ (∀ out, out ∈ get_announcements db' now false
              <-> ∃ k body, k ≠ oid ∧ announcements_collection db !! k = Some body
                            ∧ out = serialised k body)
    ∧ (∀ out, out ∈ get_announcements db' now true
              <-> ∃ k body, k ≠ oid ∧ announcements_collection db !! k = Some body
                            ∧ active_on (strftime_Ymd now) body
                            ∧ out = serialised k body)
    ∧ length (get_announcements db' now false)
      = pred (length (get_announcements db now false)).
Proof.
  intros Hd. apply delete_announcement_ok in Hd as (oid & Hid & Hfound & ->).
  exists oid. split; [done|]. split; [|split].
  - intros out. rewrite elem_of_list_all. cbn [set_announcements announcements_collection].
    split.
    + intros (k & body & [Hne Hk]%lookup_delete_Some & ->). by exists k, body.
    + intros (k & body & Hne & Hk & ->). exists k, body. split; [|done].
      by apply lookup_delete_Some.
  - intros out. rewrite elem_of_list_active. cbn [set_announcements announcements_collection].
    split.
    + intros (k & body & [Hne Hk]%lookup_delete_Some & Hact & ->). by exists k, body.
    + intros (k & body & Hne & Hk & Hact & ->). exists k, body. split; [|done].
      by apply lookup_delete_Some.
  - rewrite !list_all_perm, !length_fmap, !length_map_to_list.
    cbn [set_announcements announcements_collection].
    by rewrite map_size_delete_Some.
Qed.

Lemma delete_removes_from_lists_witness :
  length (get_announcements
            (store_after list_db (delete_announcement list_db "000000000000000000000005" "t1"))
            sample_now false) = 4%nat.
Proof.
  assert (Hd : delete_announcement list_db "000000000000000000000005" "t1"
               = Ok ("Announcement deleted successfully",
                     store_after list_db
                       (delete_announcement list_db "000000000000000000000005" "t1")))
    by (vm_compute; reflexivity).
  destruct (delete_removes_from_lists _ _ _ _ _ sample_now Hd) as (oid & _ & _ & _ & Hlen).
  rewrite Hlen. vm_compute. reflexivity.
Defined.

(** ** The passing of time *)

Lemma strftime_le now1 now2 :
  valid_clock now1 -> valid_clock now2 -> 1000 <= year now1 -> 1000 <= year now2 ->
  String.le (strftime_Ymd now1) (strftime_Ymd now2) <-> date_le (date_of now1) (date_of now2).
Proof.
  intros (? & ? & ?)%valid_date_bounds (? & ? & ?)%valid_date_bounds Hy1 Hy2.
  rewrite (strftime_Ymd_iso_date _ Hy1), (strftime_Ymd_iso_date _ Hy2).
  apply iso_date_le; lia.
Qed.

(** X14: from year 1000 on, announcements only leave the active list as
    days pass: a record in the active list read on some day is in the active
    list read, from the same store, on any earlier day.  (Before year 1000
    [strftime] writes the year with fewer digits and the texts no longer
    compare as the dates do.) *)
Theorem active_list_shrinks_with_time db now1 now2 out :
  valid_clock now1 -> valid_clock now2 ->
  1000 <= year now1 -> 1000 <= year now2 ->
  date_le (date_of now1) (date_of now2) ->
  out ∈ get_announcements db now2 true ->
  out ∈ get_announcements db now1 true.
Proof.
  intros H1 H2 Hy1 Hy2 Hle%(strftime_le _ _ H1 H2 Hy1 Hy2).
  rewrite !elem_of_list_active. intros (k & body & Hk & [Hflag Hexp] & ->).
  exists k, body. split; [done|]. split; [|done]. split; [done|].
  destruct (body !! "expiration_date") as [[| |e|]|]; try done.
  by etrans.
Qed.

Lemma active_list_shrinks_with_time_witness :
  serialised 5 (listed "2026-03-05T08:00:00Z" "2026-03-09" true)
    ∈ get_announcements list_db (mk_datetime 2026 2 28 23 59 59 0) true.
Proof.
  apply (active_list_shrinks_with_time list_db (mk_datetime 2026 2 28 23 59 59 0) sample_now);
    [reflexivity | reflexivity | done | done | done |].
  apply elem_of_list_active. eexists 5, _.
  split; [reflexivity|]. split; [|reflexivity]. split; [reflexivity | compute_done].
Defined.

(** ** Ids in the lists *)

Lemma Some_VStr_inj (a b : string) : Some (VStr a) = Some (VStr b) -> a = b.
Proof. by intros [= ->]. Qed.

(** X15: when the stored ids fit an [ObjectId], no two records of a list
    carry the same [_id]. *)
Theorem listed_ids_are_distinct db now active_only :
  ids_fit db ->
  NoDup ((fun out : Document => out !! "_id") <$> get_announcements db now active_only).
Proof.
  intros Hfit.
  assert (Hgen : ∀ l : list (N * Document),
            l ⊆ map_to_list (announcements_collection db) -> NoDup l.*1 ->
            NoDup ((fun out : Document => out !! "_id")
                     <$> ((fun kb => serialised kb.1 kb.2) <$> l))).
  { intros l Hsub Hnd. rewrite <- list_fmap_compose.
    erewrite (list_fmap_ext _ ((fun k => Some (VStr (str_oid k))) ∘ fst)).
    2: { intros _ [k body] _. simpl. apply lookup_insert_eq. }
    rewrite (list_fmap_compose fst (fun k => Some (VStr (str_oid k)))).
    apply NoDup_fmap_2_strong; [|done].
    intros k1 k2 Hk1 Hk2 E%Some_VStr_inj.
    apply list_elem_of_fmap in Hk1 as ([? b1] & -> & Hin1%Hsub%elem_of_map_to_list).
    apply list_elem_of_fmap in Hk2 as ([? b2] & -> & Hin2%Hsub%elem_of_map_to_list).
    simpl in *. apply str_oid_inj; [apply Hfit; by eexists..|done]. }
  destruct active_only.
  - rewrite list_active_perm. apply Hgen.
    + intros x [_ ?]%list_elem_of_filter. done.
    + apply (sublist_NoDup _ _ (NoDup_fst_map_to_list (announcements_collection db))).
      apply fmap_sublist, sublist_filter.
  - rewrite list_all_perm. apply Hgen; [done|]. apply NoDup_fst_map_to_list.
Qed.

Lemma listed_ids_are_distinct_witness :
  NoDup ((fun out : Document => out !! "_id") <$> get_announcements list_db sample_now false).
Proof.
  apply listed_ids_are_distinct.
  intros k [doc Hk]. unfold list_db in Hk. cbn [announcements_collection] in Hk.
  assert (k < 6); [|unfold oid_bound; lia].
  destruct (decide (k < 6)) as [|Hge]; [done|]. exfalso.
  rewrite !lookup_insert_ne, lookup_singleton_ne in Hk by lia. done.
Defined.

(** ** Update, again *)

Lemma update_announcement_fields
    db announcement_id message expiration_date teacher_username start_date is_active r db' :
  update_announcement db announcement_id message expiration_date teacher_username
    start_date is_active = Ok (r, db') ->
  ∃ oid old,
    ObjectId announcement_id = Some oid
    ∧ announcements_collection db !! oid = Some old
    ∧ is_Some (teachers_collection db !! teacher_username)
    ∧ strip message ≠ ""
    ∧ date_format_ok expiration_date start_date = true
    ∧ r = "Announcement updated successfully"
    ∧ db' = set_announcements db
              (<[oid := update_fields message expiration_date start_date is_active ∪ old]>
                 (announcements_collection db)).
Proof.
  intros Hu. pose proof Hu as Hr.
  apply update_announcement_ok in Hu as (oid & old & Hid & Hold & Ht & Hm & Hd & ->).
  exists oid, old. repeat split; try done.
  unfold update_announcement in Hr.
  rewrite (teacher_known _ _ Ht), Hid, announcement_found in Hr by (by eexists).
  rewrite (message_not_blank _ Hm), Hd in Hr.
  rewrite expiration_truthy in Hr by (by apply date_format_ok_iff in Hd as [? _]).
  simpl in Hr. by injection Hr as <- _.
Qed.

Lemma update_announcement_succeeds
    db announcement_id oid old message expiration_date teacher_username start_date is_active :
  is_Some (teachers_collection db !! teacher_username) ->
  ObjectId announcement_id = Some oid ->
  announcements_collection db !! oid = Some old ->
  strip message ≠ "" ->
  date_format_ok expiration_date start_date = true ->
  update_announcement db announcement_id message expiration_date teacher_username
    start_date is_active
  = Ok ("Announcement updated successfully",
        set_announcements db
          (<[oid := update_fields message expiration_date start_date is_active ∪ old]>
             (announcements_collection db))).
Proof.
  intros Ht Hid Hold Hm Hd. unfold update_announcement, update_one.
  rewrite (teacher_known _ _ Ht), Hid, announcement_found by (by eexists).
  rewrite (message_not_blank _ Hm), Hd, Hold.
  by rewrite expiration_truthy by (by apply date_format_ok_iff in Hd as [? _]).
Qed.

(** X16: Update is idempotent: a successful Update sent again gives the
    same answer and leaves the store as the first left it. *)
Theorem update_twice_is_update_once
    db announcement_id message expiration_date teacher_username start_date is_active r db' :
  update_announcement db announcement_id message expiration_date teacher_username
    start_date is_active = Ok (r, db') ->
  update_announcement db' announcement_id message expiration_date teacher_username
    start_date is_active = Ok (r, db').
Proof.
  intros Hu.
  apply update_announcement_fields in Hu as (oid & old & Hid & Hold & Ht & Hm & Hd & -> & ->).
  erewrite update_announcement_succeeds; try done.
  2: { cbn [set_announcements announcements_collection]. apply lookup_insert_eq. }
  f_equal. f_equal. unfold set_announcements. cbn [teachers_collection next_oid
    announcements_collection]. f_equal.
  rewrite insert_insert_eq. f_equal.
  by rewrite (assoc_L (∪)), (idemp_L (∪)).
Qed.

Lemma update_twice_is_update_once_witness :
  update_announcement (store_after sample_db sample_update) sample_id " Moved to Monday "
    "2099-02-01" "t1" (Some "2026-02-01") false
  = Ok ("Announcement updated successfully", store_after sample_db sample_update).
Proof.
  assert (Hok : sample_update
                = Ok ("Announcement updated successfully", store_after sample_db sample_update))
    by (vm_compute; reflexivity).
  exact (update_twice_is_update_once _ _ _ _ _ _ _ _ _ Hok).
Defined.

(** X17: when another request removes the announcement after Update's
    existence check and before its [update_one], Update still answers 200
    "Announcement updated successfully" and writes nothing: the store is as
    the other request left it, with no document under the id.  With nothing
    in between, the handler is [update_announcement]. *)
Theorem update_lost_race_is_silent :
  (∀ between db announcement_id oid message expiration_date teacher_username start_date
     is_active r db',
     update_announcement db announcement_id message expiration_date teacher_username
       start_date is_active = Ok (r, db') ->
     ObjectId announcement_id = Some oid ->
     announcements_collection (between db) !! oid = None ->
     ∃ db'',
       update_announcement_interleaved between db announcement_id message expiration_date
         teacher_username start_date is_active
       = Ok ("Announcement updated successfully", db'')
       ∧ announcements_collection db'' = announcements_collection (between db)
       ∧ announcements_collection db'' !! oid = None)
  ∧ (∀ db announcement_id message expiration_date teacher_username start_date is_active,
       update_announcement_interleaved (fun db => db) db announcement_id message
         expiration_date teacher_username start_date is_active
       = update_announcement db announcement_id message expiration_date teacher_username
           start_date is_active).
Proof.
  split; [|done].
  intros between db announcement_id oid message expiration_date teacher_username start_date
    is_active r db' Hu Hid Hgone.
  apply update_announcement_fields in Hu as (oid' & old & Hid' & Hold & Ht & Hm & Hd & _ & _).
  assert (oid' = oid) as -> by congruence.
  eexists. unfold update_announcement_interleaved, update_one.
  rewrite (teacher_known _ _ Ht), Hid, announcement_found by (by eexists).
  rewrite (message_not_blank _ Hm), Hd, Hgone.
  rewrite expiration_truthy by (by apply date_format_ok_iff in Hd as [? _]).
  cbn [negb snd]. split; [reflexivity|]. done.
Qed.

Lemma update_lost_race_is_silent_witness :
  ∃ db'',
    update_announcement_interleaved racing_delete sample_db sample_id " Moved to Monday "
      "2099-02-01" "t1" (Some "2026-02-01") false
    = Ok ("Announcement updated successfully", db'')
    ∧ announcements_collection db'' !! 7 = None.
Proof.
  destruct update_lost_race_is_silent as [Hrace _].
  assert (Hok : sample_update
                = Ok ("Announcement updated successfully", store_after sample_db sample_update))
    by (vm_compute; reflexivity).
  destruct (Hrace racing_delete sample_db sample_id 7 " Moved to Monday " "2099-02-01" "t1"
              (Some "2026-02-01") false _ _ Hok eq_refl eq_refl) as (db'' & H & _ & Hnone).
  by exists db''.
Defined.

(** ** Histories, again *)

(** What one request does to the store, with what it checked. *)
Lemma next_store_effect db req :
  next_store db req = db
  ∨ (∃ now message expiration_date teacher_username start_date,
       strip message ≠ ""
       ∧ date_format_ok expiration_date start_date = true
       ∧ announcements_collection db !! next_oid db = None
       ∧ next_store db req =
           {| announcements_collection :=
                <[next_oid db :=
                    new_announcement now message expiration_date teacher_username start_date]>
                  (announcements_collection db);
              teachers_collection := teachers_collection db;
              next_oid := next_oid db + 1 |})
  ∨ (∃ oid old message expiration_date start_date is_active,
       announcements_collection db !! oid = Some old
       ∧ strip message ≠ ""
       ∧ date_format_ok expiration_date start_date = true
       ∧ next_store db req = set_announcements db
           (<[oid := update_fields message expiration_date start_date is_active ∪ old]>
              (announcements_collection db)))
  ∨ (∃ oid, is_Some (announcements_collection db !! oid)
            ∧ next_store db req =
                set_announcements db (delete oid (announcements_collection db))).
Proof.
  destruct req as [now active_only
                  | now message expiration_date teacher_username start_date
                  | announcement_id message expiration_date teacher_username start_date is_active
                  | announcement_id teacher_username]; simpl.
  - by left.
  - destruct (create_announcement _ _ _ _ _ _) as [[r db']|e] eqn:Hc; [|by left].
    apply create_announcement_ok in Hc as (_ & Hmsg & Hd & Hfree & -> & ->).
    right; left. by exists now, message, expiration_date, teacher_username, start_date.
  - destruct (update_announcement _ _ _ _ _ _ _) as [[r db']|e] eqn:Hu; [|by left].
    apply update_announcement_fields in Hu as (oid & old & _ & Hold & _ & Hmsg & Hd & _ & ->).
    right; right; left. by exists oid, old, message, expiration_date, start_date, is_active.
  - destruct (delete_announcement _ _ _) as [[r db']|e] eqn:Hd; [|by left].
    apply delete_announcement_ok in Hd as (oid & _ & Hfound & ->).
    right; right; right. by exists oid.
Qed.

Lemma dates_well_formed_intro (doc : Document) expiration_date start_date :
  date_format_ok expiration_date start_date = true ->
  doc !! "expiration_date" = Some (VStr expiration_date) ->
  doc !! "start_date" = Some (of_optional start_date) ->
  dates_well_formed doc.
Proof.
  intros [Hexp Hstart]%date_format_ok_iff He Hs. split; [by exists expiration_date|].
  rewrite Hs. destruct start_date as [s|]; [|by left]. right.
  destruct (decide (s = "")) as [-> | Hne]; [by left|].
  right. exists s. split; [done|]. by apply Hstart.
Qed.

Lemma next_store_dates db req :
  (∀ oid doc, announcements_collection db !! oid = Some doc -> dates_well_formed doc) ->
  ∀ oid doc, announcements_collection (next_store db req) !! oid = Some doc ->
             dates_well_formed doc.
Proof.
  intros Hdb.
  destruct (next_store_effect db req)
    as [-> | [(now & message & e & u & s & _ & Hd & _ & ->)
           | [(oid & old & message & e & s & a & Hold & _ & Hd & ->) | (oid & _ & ->)]]];
    [done|..]; intros k doc; simpl.
  - destruct (decide (next_oid db = k)) as [<- | Hk].
    + rewrite lookup_insert_eq. intros [= <-]. by apply (dates_well_formed_intro _ e s).
    + rewrite lookup_insert_ne by done. apply Hdb.
  - destruct (decide (oid = k)) as [<- | Hk].
    + rewrite lookup_insert_eq. intros [= <-].
      apply (dates_well_formed_intro _ e s); [done|by apply lookup_union_Some_l..].
    + rewrite lookup_insert_ne by done. apply Hdb.
  - destruct (decide (oid = k)) as [<- | Hk].
    + by rewrite lookup_delete_eq.
    + rewrite lookup_delete_ne by done. apply Hdb.
Qed.

(** X18: in every store the handlers produce from an empty collection,
    each announcement has an expiration date that is a text [strptime]
    accepts, and a start date that is null, the empty text or a text
    [strptime] accepts. *)
Theorem stored_dates_are_well_formed db0 reqs oid doc :
  announcements_collection db0 = ∅ ->
  announcements_collection (run db0 reqs) !! oid = Some doc ->
  dates_well_formed doc.
Proof.
  intros Hempty.
  assert (Hinv : ∀ db, (∀ oid doc, announcements_collection db !! oid = Some doc ->
                                   dates_well_formed doc) ->
                 ∀ oid doc, announcements_collection (run db reqs) !! oid = Some doc ->
                            dates_well_formed doc).
  { induction reqs as [|req reqs IH]; intros db Hdb; simpl; [done|].
    apply IH. by apply next_store_dates. }
  apply Hinv. intros k d. rewrite Hempty. by rewrite lookup_empty.
Qed.

Lemma stored_dates_are_well_formed_witness :
  dates_well_formed sample_final_announcement.
Proof.
  assert (E : announcements_collection (run empty_db sample_history) !! 0
              = Some sample_final_announcement) by (vm_compute; reflexivity).
  exact (stored_dates_are_well_formed empty_db sample_history 0
           sample_final_announcement eq_refl E).
Defined.

Lemma next_store_keeps_origin db req oid doc doc' f :
  f = "created_by" ∨ f = "created_at" ->
  ids_issued db ->
  announcements_collection db !! oid = Some doc ->
  announcements_collection (next_store db req) !! oid = Some doc' ->
  doc' !! f = doc !! f.
Proof.
  intros Hf Hdb Hdoc.
  assert (Hlt : oid < next_oid db) by (apply Hdb; by eexists).
  destruct (next_store_effect db req)
    as [-> | [(now & message & e & u & s & _ & _ & _ & ->)
           | [(k & old & message & e & s & a & Hold & _ & _ & ->) | (k & _ & ->)]]];
    simpl.
  - rewrite Hdoc. by intros [= <-].
  - rewrite lookup_insert_ne by lia. rewrite Hdoc. by intros [= <-].
  - destruct (decide (k = oid)) as [-> | Hk].
    + rewrite lookup_insert_eq. intros [= <-]. rewrite Hdoc in Hold. injection Hold as <-.
      apply lookup_union_r. by destruct Hf as [-> | ->].
    + rewrite lookup_insert_ne by done. rewrite Hdoc. by intros [= <-].
  - destruct (decide (k = oid)) as [-> | Hk].
    + by rewrite lookup_delete_eq.
    + rewrite lookup_delete_ne by done. rewrite Hdoc. by intros [= <-].
Qed.

(** X19: the author and the creation time of an announcement never change:
    in a store whose ids came from the generator, whatever requests follow,
    a document found under an id afterwards has the [created_by] and the
    [created_at] the document under that id had before; an id is not given
    to a second announcement, even after a Delete. *)
Theorem origin_is_immutable db reqs oid doc doc' :
  ids_issued db ->
  announcements_collection db !! oid = Some doc ->
  announcements_collection (run db reqs) !! oid = Some doc' ->
  doc' !! "created_by" = doc !! "created_by"
  ∧ doc' !! "created_at" = doc !! "created_at".
Proof.
  intros Hdb Hdoc Hdoc'.
  assert (Hlt : oid < next_oid db) by (apply Hdb; by eexists).
  assert (Hinv : ∀ f, f = "created_by" ∨ f = "created_at" ->
            ∀ history db1, ids_issued db1 -> oid < next_oid db1 ->
              (∀ d, announcements_collection db1 !! oid = Some d -> d !! f = doc !! f) ->
              ∀ d', announcements_collection (run db1 history) !! oid = Some d' ->
                    d' !! f = doc !! f).
  { intros f Hf history.
    induction history as [|req history IH]; intros db1 Hdb1 Hlt1 Hcur d' Hend;
      simpl in Hend.
    - by apply Hcur.
    - apply (IH (next_store db1 req)); try done.
      + by apply next_store_ids_issued.
      + pose proof (next_store_next_oid db1 req). lia.
      + intros d Hd.
        destruct (announcements_collection db1 !! oid) as [d0|] eqn:Hd0.
        * rewrite (next_store_keeps_origin db1 req oid d0 d f); try done. by apply Hcur.
        * exfalso.
          destruct (next_store_effect db1 req)
            as [E | [(? & ? & ? & ? & ? & _ & _ & _ & E)
                | [(k & old & ? & ? & ? & ? & Hold & _ & _ & E) | (k & _ & E)]]];
            rewrite E in Hd; simpl in Hd.
          -- congruence.
          -- rewrite lookup_insert_ne in Hd by lia. congruence.
          -- destruct (decide (k = oid)) as [-> | Hk]; [congruence|].
             rewrite lookup_insert_ne in Hd by done. congruence.
          -- destruct (decide (k = oid)) as [-> | Hk].
             ++ by rewrite lookup_delete_eq in Hd.
             ++ rewrite lookup_delete_ne in Hd by done. congruence. }
  split;
    [apply (Hinv "created_by" (or_introl eq_refl) reqs db)
    |apply (Hinv "created_at" (or_intror eq_refl) reqs db)]; try done;
    intros d; rewrite Hdoc; by intros [= <-].
Qed.

Lemma origin_is_immutable_witness :
  announcements_collection (run sample_db sample_later) !! 7 = Some sample_changed
  ∧ sample_changed !! "created_by" = sample_announcement !! "created_by"
  ∧ sample_changed !! "created_at" = sample_announcement !! "created_at".
Proof.
  assert (Hdb : ids_issued sample_db).
  { intros k [doc Hk]. destruct (decide (k = 7)) as [-> | Hne]; [done|].
    unfold sample_db in Hk. simpl in Hk. by rewrite lookup_singleton_ne in Hk. }
  assert (E : announcements_collection (run sample_db sample_later) !! 7
              = Some sample_changed) by (vm_compute; reflexivity).
  split; [exact E|].
  exact (origin_is_immutable sample_db sample_later 7 sample_announcement sample_changed
           Hdb eq_refl E).
Defined.

(** ** What List returns *)

(** X20: what List returns, in the store's own terms.  With [active_only]
    it returns, once each, the stored announcements whose flag is set and
    whose expiration date is absent or, as a text, not below the current
    date as [strftime] writes it, and no other; without [active_only] all
    the stored announcements; in both cases ordered by the [created_at]
    value, greatest first in the store's order on values, each with its id
    as a string.  From year 1000 on, for an expiration date written
    [YYYY-MM-DD], the comparison of the texts is the comparison of the
    dates. *)
Theorem list_returns_active_or_all_sorted db now :
  get_announcements db now true
    ≡ₚ (fun kb => serialised kb.1 kb.2)
         <$> filter (fun kb => active_on (strftime_Ymd now) kb.2)
               (map_to_list (announcements_collection db))
  ∧ (∀ out, out ∈ get_announcements db now true
            <-> ∃ oid body, announcements_collection db !! oid = Some body
                            ∧ active_on (strftime_Ymd now) body
                            ∧ out = serialised oid body)
  ∧ get_announcements db now false
      ≡ₚ (fun kb => serialised kb.1 kb.2) <$> map_to_list (announcements_collection db)
  ∧ (∀ out, out ∈ get_announcements db now false
            <-> ∃ oid body, announcements_collection db !! oid = Some body
                            ∧ out = serialised oid body)
  ∧ (∀ active_only,
       StronglySorted (desc_by "created_at") (get_announcements db now active_only))
  ∧ (∀ active_only out, out ∈ get_announcements db now active_only ->
       ∃ oid, out !! "_id" = Some (VStr (str_oid oid))
              ∧ is_Some (announcements_collection db !! oid))
  ∧ (∀ body y m d,
       1000 <= year now -> year now < 10000 -> month now < 100 -> day now < 100 ->
       y < 10000 -> m < 100 -> d < 100 ->
       body !! "expiration_date" = Some (VStr (iso_date y m d)) ->
       (active_on (strftime_Ymd now) body
        <-> body !! "is_active" = Some (VBool true)
            ∧ date_le (year now, month now, day now) (y, m, d))).
Proof.
  assert (Hactive : get_announcements db now true
    ≡ₚ (fun kb => serialised kb.1 kb.2)
         <$> filter (fun kb => active_on (strftime_Ymd now) kb.2)
               (map_to_list (announcements_collection db))).
  { unfold get_announcements. rewrite find_active. apply serialise_sorted. }
  assert (Hall : get_announcements db now false
    ≡ₚ (fun kb => serialised kb.1 kb.2) <$> map_to_list (announcements_collection db)).
  { unfold get_announcements. rewrite find_all. apply serialise_sorted. }
  assert (Hin_active : ∀ out, out ∈ get_announcements db now true
            <-> ∃ oid body, announcements_collection db !! oid = Some body
                            ∧ active_on (strftime_Ymd now) body
                            ∧ out = serialised oid body).
  { intros out. rewrite Hactive, list_elem_of_fmap. split.
    - intros ([k body] & -> & [Hact Hin]%list_elem_of_filter).
      apply elem_of_map_to_list in Hin. by exists k, body.
    - intros (k & body & Hin & Hact & ->). exists (k, body). split; [done|].
      apply list_elem_of_filter. split; [done|]. by apply elem_of_map_to_list. }
  assert (Hin_all : ∀ out, out ∈ get_announcements db now false
            <-> ∃ oid body, announcements_collection db !! oid = Some body
                            ∧ out = serialised oid body).
  { intros out. rewrite Hall, list_elem_of_fmap. split.
    - intros ([k body] & -> & Hin). apply elem_of_map_to_list in Hin. by exists k, body.
    - intros (k & body & Hin & ->). exists (k, body). split; [done|].
      by apply elem_of_map_to_list. }
  split; [done|]. split; [done|]. split; [done|]. split; [done|].
  split; [|split].
  - intros active_only. unfold get_announcements.
    apply serialise_keeps_order, StronglySorted_merge_sort; apply _.
  - intros [] out Hout.
    + apply Hin_active in Hout as (k & body & Hk & _ & ->). exists k.
      split; [apply lookup_insert_eq | by eexists].
    + apply Hin_all in Hout as (k & body & Hk & ->). exists k.
      split; [apply lookup_insert_eq | by eexists].
  - intros body y m d Hy ?????? Hexp. unfold active_on. rewrite Hexp.
    rewrite (strftime_Ymd_iso_date _ Hy). by rewrite iso_date_le.
Qed.

Lemma list_returns_active_or_all_sorted_witness :
  serialised 5 (listed "2026-03-05T08:00:00Z" "2026-03-09" true)
    ∈ get_announcements list_db sample_now true
  ∧ serialised 2 (listed "2026-03-02T08:00:00Z" "2026-03-08" true)
      ∈ get_announcements list_db sample_now false
  ∧ ¬ active_on (strftime_Ymd sample_now) (listed "2026-03-02T08:00:00Z" "2026-03-08" true).
Proof.
  destruct (list_returns_active_or_all_sorted list_db sample_now)
    as (_ & Hactive & _ & Hall & _ & _ & Hdate).
  split; [|split].
  - apply Hactive. eexists 5, _. split; [reflexivity|]. split; [|reflexivity].
    split; [reflexivity | compute_done].
  - apply Hall. eexists 2, _. split; reflexivity.
  - intros Hact.
    apply (Hdate _ 2026 3 8) in Hact as [_ Hle]; [|first [reflexivity | by vm_compute]..].
    by apply Hle.
Defined.
